(** * VIN decoding and validation: a shallow embedding of [core/vin.go]

    The Go functions [ValidateVIN], [calculateScore], [getCharacterMap],
    [getUniqueSerial], [manufactureYear], [deconstruct], [newVIN] and
    [BuildInfo] are embedded as Rocq functions with the same names.

    - A Go [string] is a sequence of bytes: Rocq's [string] (a list of 8-bit
      [ascii]); [len] is [String.length].
    - A Go [int] is a 64-bit two's complement integer: a [Z], with the
      wrap-around of [+] and [*] written out ([int_add], [int_mul]).
    - A Go run-time panic is a result of its own ([Panics]), next to a normal
      return ([Returns]); an [error] return value is an [option error]
      ([None] is Go's [nil]).
    - The collaborators that are not part of this file of the repository
      ([FindWMInfo], [vds.FindVDSInfo], [getCharWeight], the clock) are
      variables of a section; every call to one is recorded in a trace. *)

From Stdlib Require Import ZArith List String Ascii Lia DecimalString.
From stdpp Require Import base gmap strings list.

Local Open Scope Z_scope.

(** ** Go values *)

(** [int] on a 64-bit platform. *)
Definition intSize : Z := 64.
Definition maxInt : Z := 2 ^ 63 - 1.
Definition minInt : Z := - 2 ^ 63.
Definition maxUint64 : Z := 2 ^ 64 - 1.

(** Two's complement wrap-around to 64 bits. *)
Definition wrap (z : Z) : Z := (z + 2 ^ 63) mod 2 ^ 64 - 2 ^ 63.
Definition int_add (a b : Z) : Z := wrap (a + b).
Definition int_mul (a b : Z) : Z := wrap (a * b).
(** Go's [%] truncates towards zero. *)
Definition int_rem (a b : Z) : Z := Z.rem a b.

(** The value of a byte. *)
Definition byte (c : ascii) : Z := Z.of_N (N_of_ascii c).

(** An [error] value, by the message [Error()] gives. *)
Inductive error : Type :=
| ErrorString (msg : string).

Definition errors_New (msg : string) : error := ErrorString msg.

(** The [Err] field of a [*strconv.NumError]. *)
Inductive NumError : Type :=
| ErrSyntax
| ErrRange.

(** What a Go panic carries. *)
Inductive panic : Type :=
| PanicNumError (e : NumError)      (* [panic(err)] in [calculateScore] *)
| IndexOutOfRange                   (* [weights[k]] with [k] out of range *)
| SliceBoundsOutOfRange             (* [s[lo:hi]] out of range *)
| NilDereference.                   (* a method called on a [nil] pointer *)

(** The outcome of running a Go function. *)
Inductive Res (A : Type) : Type :=
| Returns (a : A)
| Panics (p : panic).
Arguments Returns {A} a.
Arguments Panics {A} p.

Definition bindR {A B : Type} (r : Res A) (k : A -> Res B) : Res B :=
  match r with
  | Returns a => k a
  | Panics p => Panics p
  end.

Declare Scope go_scope.
Delimit Scope go_scope with go.
Notation "'do' x <- r ; k" := (bindR r (fun x => k))
  (at level 10, x pattern, r at level 100, k at level 200) : go_scope.

(** ** Strings *)

(** [s[lo:hi]]: panics unless [0 <= lo <= hi <= len(s)]. *)
Definition slice (s : string) (lo hi : nat) : Res string :=
  if ((lo <=? hi) && (hi <=? String.length s))%nat
  then Returns (substring lo (hi - lo) s)
  else Panics SliceBoundsOutOfRange.

(** [s[lo:]] and [s[:hi]]. *)
Definition slice_from (s : string) (lo : nat) : Res string :=
  slice s lo (String.length s).
Definition slice_to (s : string) (hi : nat) : Res string :=
  slice s 0 hi.

(** [strings.ContainsAny(s, chars)] for [chars] made of ASCII bytes: some byte
    of [s] is one of [chars].  (For ASCII [chars] Go compares byte by byte, and
    no byte of a multi-byte UTF-8 sequence is an ASCII byte.) *)
Definition ContainsAny (s chars : string) : bool :=
  existsb (fun c => existsb (Ascii.eqb c) (list_ascii_of_string chars))
          (list_ascii_of_string s).

(** ** [strconv] *)

(** The digit loop of [Atoi]'s fast path: [ch -= '0'] on a byte wraps, and
    any byte that is not a decimal digit ends up above 9. *)
Fixpoint atoi_fast (s : string) (n : Z) : option Z :=
  match s with
  | EmptyString => Some n
  | String ch s' =>
      let ch := (byte ch - byte "0") mod 256 in
      if 9 <? ch then None else atoi_fast s' (n * 10 + ch)
  end.

(** [ParseUint(s, 10, 64)]'s loop: a byte that is not a digit is a syntax
    error, an overflow of [uint64] a range error, whichever comes first. *)
Fixpoint parseUint_loop (s : string) (n : Z) : Z * option NumError :=
  match s with
  | EmptyString => (n, None)
  | String c s' =>
      if (byte "0" <=? byte c) && (byte c <=? byte "9") then
        let d := byte c - byte "0" in
        if maxUint64 / 10 + 1 <=? n then (maxUint64, Some ErrRange)
        else
          let n1 := n * 10 + d in
          if maxUint64 <? n1 then (maxUint64, Some ErrRange)
          else parseUint_loop s' n1
      else (0, Some ErrSyntax)
  end.

Definition ParseUint (s : string) : Z * option NumError :=
  match s with
  | EmptyString => (0, Some ErrSyntax)
  | _ => parseUint_loop s 0
  end.

(** [ParseInt(s, 10, 0)]. *)
Definition ParseInt (s : string) : Z * option NumError :=
  match s with
  | EmptyString => (0, Some ErrSyntax)
  | String c0 rest =>
      let neg := Ascii.eqb c0 "-" in
      let s1 := if Ascii.eqb c0 "+" || neg then rest else s in
      match ParseUint s1 with
      | (_, Some ErrSyntax) => (0, Some ErrSyntax)
      | (un, _) =>
          let cutoff := 2 ^ (intSize - 1) in
          if negb neg && (cutoff <=? un) then (cutoff - 1, Some ErrRange)
          else if neg && (cutoff <? un) then (- cutoff, Some ErrRange)
          else (if neg then - un else un, None)
      end
  end.

(** [strconv.Atoi]: an optional sign and decimal digits.  Strings of 1 to 18
    bytes take the fast path, the others go through [ParseInt]. *)
Definition Atoi (s : string) : Z * option NumError :=
  let sLen := String.length s in
  if ((0 <? sLen) && (sLen <? 19))%nat then
    match s with
    | EmptyString => (0, Some ErrSyntax)
    | String c0 rest =>
        let signed := Ascii.eqb c0 "-" || Ascii.eqb c0 "+" in
        let s1 := if signed then rest else s in
        if signed && (String.length s1 <? 1)%nat then (0, Some ErrSyntax)
        else
          match atoi_fast s1 0 with
          | None => (0, Some ErrSyntax)
          | Some n => (if Ascii.eqb c0 "-" then - n else n, None)
          end
    end
  else ParseInt s.

(** [strconv.Itoa]: the decimal numeral of an integer. *)
Definition Itoa (i : Z) : string := NilZero.string_of_int (Z.to_int i).

(** ** The check digit *)

(** [getCharacterMap]: the assignments of the source, in its order. *)
Definition getCharacterMap : gmap string Z :=
  foldl (fun digitMap kv => <[kv.1 := kv.2]> digitMap) ∅
    [ ("A", 1); ("B", 2); ("C", 3); ("D", 4); ("E", 5); ("F", 6); ("G", 7);
      ("H", 8); ("J", 1); ("K", 2); ("L", 3); ("M", 4); ("N", 5); ("P", 7);
      ("R", 9); ("S", 2); ("T", 3); ("U", 4); ("V", 5); ("W", 6); ("X", 7);
      ("Y", 8); ("Z", 9) ].

Definition weights : list Z :=
  [8; 7; 6; 5; 4; 3; 2; 10; 0; 9; 8; 7; 6; 5; 4; 3; 2].

(** The value of one character in the loop of [calculateScore]: the map
    first, [Atoi] when the key is missing, a panic when [Atoi] fails.

    [range] over a string yields runes.  A byte below 0x80 is a rune of its
    own and [string(v)] is that byte.  A byte from 0x80 on starts a multi-byte
    rune or is replaced by U+FFFD; [string(v)] then starts with a byte from
    0x80 on, which is no key of the map and no numeral, so the loop panics
    there just as it does for the one-byte string taken here. *)
Definition runeValue (digitMap : gmap string Z) (v : ascii) : Res Z :=
  let strVal := String v EmptyString in
  match digitMap !! strVal with
  | Some value => Returns value
  | None =>
      match Atoi strVal with
      | (val, None) => Returns val
      | (_, Some err) => Panics (PanicNumError err)
      end
  end.

(** The [for k, v := range fullvin] loop, from index [k] on, with [result]
    so far. *)
Fixpoint scoreLoop (digitMap : gmap string Z) (weights : list Z)
  (k : nat) (fullvin : string) (result : Z) : Res Z :=
  match fullvin with
  | EmptyString => Returns result
  | String v rest =>
      (do value <- runeValue digitMap v;
       match weights !! k with
       | None => Panics IndexOutOfRange
       | Some w =>
           scoreLoop digitMap weights (S k) rest
             (int_add result (int_mul value w))
       end)%go
  end.

Definition calculateScore (fullvin : string) : Res string :=
  (do result <- scoreLoop getCharacterMap weights 0 fullvin 0;
   let mod_ := int_rem result 11 in
   if mod_ =? 10 then Returns "X" else Returns (Itoa mod_))%go.

(** ** Validation *)

Definition LengthError : error := errors_New "not correct length".
Definition IllegalCharacterError : error := errors_New "found illegal characters".
(** [fmt.Errorf("check digit %s is invalid for %s", checkDigit, score)]. *)
Definition CheckDigitError (checkDigit score : string) : error :=
  ErrorString ("check digit " +:+ checkDigit +:+ " is invalid for " +:+ score).

Definition ValidateVIN (fullvin : string) : Res (option error) :=
  if negb (String.length fullvin =? 17)%nat then Returns (Some LengthError)
  else if ContainsAny fullvin "IOQ" then Returns (Some IllegalCharacterError)
  else
    (do checkDigit <- slice fullvin 8 9;
     do score <- calculateScore fullvin;
     if negb (String.eqb checkDigit score)
     then Returns (Some (CheckDigitError checkDigit score))
     else Returns None)%go.

(** ** Decomposition *)

Definition getUniqueSerial (fullvin : string) : Res (string * Z) :=
  (do tail <- slice_from fullvin 11;
   let serial := (Atoi tail).1 in
   do unique <- slice_to fullvin 11;
   Returns (unique, serial))%go.

(** ** The decoder and its collaborators *)

Section Decoder.

(** [core.WMInfo] and [vds.VDSInfo], their zero values, and the
    [Manufacturer] field of a [WMInfo]. *)
Variable WMInfo_t : Type.
Variable VDSInfo_t : Type.
Variable Manufacturer_t : Type.
Variable Manufacturer : WMInfo_t -> Manufacturer_t.
Variable WMInfo_zero : WMInfo_t.
Variable VDSInfo_zero : VDSInfo_t.

(** The lookups, as functions of their arguments, and the table lookup
    behind [manufactureYear]. *)
Variable FindWMInfo : string -> WMInfo_t * option error.
Variable FindVDSInfo :
  Manufacturer_t -> string -> list Z -> VDSInfo_t * option error.
Variable getCharWeight : string -> Z.

(** [time.Now().Year()] at the n-th reading of the clock. *)
Variable yearAt : nat -> Z.

(** A call to a lookup, with its arguments. *)
Inductive Call : Type :=
| CallFindWMInfo (unique : string)
| CallFindVDSInfo (manufacturer : Manufacturer_t) (unique : string)
    (years : list Z).

(** What a run has done so far: the lookups called, oldest first, and how
    often the clock was read. *)
Record World : Type := mkWorld { calls : list Call; ticks : nat }.

Definition M (A : Type) : Type := World -> Res A * World.

Definition retM {A : Type} (a : A) : M A := fun w => (Returns a, w).

Definition bindM {A B : Type} (m : M A) (k : A -> M B) : M B :=
  fun w =>
    match m w with
    | (Returns a, w') => k a w'
    | (Panics p, w') => (Panics p, w')
    end.

Definition liftR {A : Type} (r : Res A) : M A := fun w => (r, w).

Notation "'run' x <- m ; k" := (bindM m (fun x => k))
  (at level 10, x pattern, m at level 100, k at level 200) : go_scope.

Definition callFindWMInfo (unique : string) : M (WMInfo_t * option error) :=
  fun w =>
    (Returns (FindWMInfo unique),
     mkWorld (calls w ++ [CallFindWMInfo unique]) (ticks w)).

Definition callFindVDSInfo (manufacturer : Manufacturer_t) (unique : string)
  (years : list Z) : M (VDSInfo_t * option error) :=
  fun w =>
    (Returns (FindVDSInfo manufacturer unique years),
     mkWorld (calls w ++ [CallFindVDSInfo manufacturer unique years])
       (ticks w)).

Definition timeNowYear : M Z :=
  fun w => (Returns (yearAt (ticks w)), mkWorld (calls w) (S (ticks w))).

(** *** Model years *)

Definition NoWeightError : error := errors_New "unable to get a weight".

(** The [for _, v := range years] loop with [result] so far. *)
Fixpoint yearsLoop (charWeight maxYear : Z) (years result : list Z)
  : list Z :=
  match years with
  | [] => result
  | v :: years' =>
      let year := int_add v charWeight in
      yearsLoop charWeight maxYear years'
        (if year <? maxYear then result ++ [year] else result)
  end.

Definition manufactureYear (digit : string) : M (list Z * option error) :=
  let charWeight := getCharWeight digit in
  if charWeight =? 0 then retM ([], Some NoWeightError)
  else
    (run maxYear <- timeNowYear;
     retM (yearsLoop charWeight maxYear [1980; 2010] [], None))%go.

(** *** The VIN record *)

Record VIN : Type := mkVIN {
  Full : string;
  Unique : string;
  Serial : Z;
  WMInfo : WMInfo_t;
  VDSInfo : VDSInfo_t
}.

(** [deconstruct] works on the record behind its pointer receiver: it
    returns the record as the call leaves it, next to the [error]. *)
Definition deconstruct (m : VIN) : M (VIN * option error) :=
  (run us <- liftR (getUniqueSerial (Full m));
   let m := mkVIN (Full m) us.1 us.2 (WMInfo m) (VDSInfo m) in
   run found <- callFindWMInfo (Unique m);
   let wmiInfo := found.1 in
   match found.2 with
   | Some err => retM (m, Some err)
   | None =>
       let m := mkVIN (Full m) (Unique m) (Serial m) wmiInfo (VDSInfo m) in
       run digit <- liftR (slice (Full m) 9 10);
       run ys <- manufactureYear digit;
       match ys.2 with
       | Some err => retM (m, Some err)
       | None =>
           run vdsFound <-
             callFindVDSInfo (Manufacturer wmiInfo) (Unique m) ys.1;
           retM (m, vdsFound.2)
       end
   end)%go.

(** The pair of a VIN pointer and an [error]: the pointer is [None] when it
    is [nil]. *)
Definition newVIN (fullvin : string) : M (option VIN * option error) :=
  let vin := mkVIN fullvin EmptyString 0 WMInfo_zero VDSInfo_zero in
  (run r <- deconstruct vin;
   match r.2 with
   | Some err => retM (None, Some err)
   | None => retM (Some r.1, None)
   end)%go.

Definition BuildInfo (fullvin : string) : M (option VIN * option error) :=
  (run r <- newVIN fullvin;
   match r.2 with
   | Some err => retM (None, Some err)
   | None =>
       match r.1 with
       | None => liftR (Panics NilDereference)
       | Some vin =>
           run r' <- deconstruct vin;
           match r'.2 with
           | Some err => retM (None, Some err)
           | None => retM (Some r'.1, None)
           end
       end
   end)%go.

End Decoder.

Arguments mkWorld {Manufacturer_t} calls ticks.
Arguments calls {Manufacturer_t} w.
Arguments ticks {Manufacturer_t} w.
Arguments CallFindWMInfo {Manufacturer_t} unique.
Arguments CallFindVDSInfo {Manufacturer_t} manufacturer unique years.
Arguments mkVIN {WMInfo_t VDSInfo_t}.
Arguments Full {WMInfo_t VDSInfo_t} v.
Arguments Unique {WMInfo_t VDSInfo_t} v.
Arguments Serial {WMInfo_t VDSInfo_t} v.
Arguments WMInfo {WMInfo_t VDSInfo_t} v.
Arguments VDSInfo {WMInfo_t VDSInfo_t} v.

(** ** Stand-ins for the collaborators

    Concrete collaborators, for running the decoder on examples. *)
Module Fixture.

Record WMInfoRec : Type := { wmManufacturer : string; wmCountry : string }.
Record VDSInfoRec : Type := { vdsBody : string; vdsDoors : Z }.

(** A WMI lookup that knows one manufacturer. *)
Definition FindWMInfo (unique : string) : WMInfoRec * option error :=
  if String.eqb (substring 0 3 unique) "1HG"
  then ({| wmManufacturer := "Honda"; wmCountry := "US" |}, None)
  else ({| wmManufacturer := ""; wmCountry := "" |},
        Some (errors_New "manufacturer not found")).

(** A VDS lookup that always finds a record. *)
Definition FindVDSInfo (manufacturer unique : string) (years : list Z)
  : VDSInfoRec * option error :=
  ({| vdsBody := "Sedan"; vdsDoors := 4 |}, None).

(** Modelled from the spec: the ModelYearTable behind [getCharWeight], which
    is not in [vin.go]: "a fixed mapping from 30 distinguishable alphanumeric
    characters to a year-offset 0-29".  The spec names neither the characters
    nor their order; the year codes of ISO 3779 are taken, [A] first. *)
Definition ModelYearTable : gmap string Z :=
  list_to_map
    [ ("A", 0); ("B", 1); ("C", 2); ("D", 3); ("E", 4); ("F", 5); ("G", 6);
      ("H", 7); ("J", 8); ("K", 9); ("L", 10); ("M", 11); ("N", 12);
      ("P", 13); ("R", 14); ("S", 15); ("T", 16); ("V", 17); ("W", 18);
      ("X", 19); ("Y", 20); ("1", 21); ("2", 22); ("3", 23); ("4", 24);
      ("5", 25); ("6", 26); ("7", 27); ("8", 28); ("9", 29) ].

(** Modelled from the spec: [getCharWeight], the lookup of the model-year
    character in ModelYearTable; as a Go map lookup it gives 0 for a
    character the table does not have. *)
Definition getCharWeight (digit : string) : Z :=
  default 0 (ModelYearTable !! digit).

Definition yearAt (n : nat) : Z := 2025.

Definition w0 : World string := mkWorld [] 0.

Definition manufactureYear : string -> M string (list Z * option error) :=
  manufactureYear string getCharWeight yearAt.

Definition zeroWMInfo : WMInfoRec := {| wmManufacturer := ""; wmCountry := "" |}.
Definition zeroVDSInfo : VDSInfoRec := {| vdsBody := ""; vdsDoors := 0 |}.

Definition newVIN
  : string -> M string (option (VIN WMInfoRec VDSInfoRec) * option error) :=
  newVIN WMInfoRec VDSInfoRec string wmManufacturer zeroWMInfo zeroVDSInfo
    FindWMInfo FindVDSInfo getCharWeight yearAt.

Definition BuildInfo
  : string -> M string (option (VIN WMInfoRec VDSInfoRec) * option error) :=
  BuildInfo WMInfoRec VDSInfoRec string wmManufacturer zeroWMInfo zeroVDSInfo
    FindWMInfo FindVDSInfo getCharWeight yearAt.

(** The VIN of the specification's end-to-end scenario, as the decoder
    returns it with these collaborators, and the record the VDS lookup has
    for it. *)
Definition honda : WMInfoRec := {| wmManufacturer := "Honda"; wmCountry := "US" |}.
Definition sedan : VDSInfoRec := {| vdsBody := "Sedan"; vdsDoors := 4 |}.
Definition hondaVIN : VIN WMInfoRec VDSInfoRec :=
  mkVIN "1HGCM82633A004352" "1HGCM82633A" 4352 honda zeroVDSInfo.

End Fixture.

(** ** The words of the specification

    The definitions below follow the specification, not the code: the
    character set, the check character as the specification computes it, and
    the number a string of digits denotes. *)

Definition isDigit (c : ascii) : bool := (48 <=? byte c) && (byte c <=? 57).

(** The 23 letters: [A] to [Z] without [I], [O] and [Q]. *)
Definition isVinLetter (c : ascii) : bool :=
  (65 <=? byte c) && (byte c <=? 90)
  && negb (existsb (Ascii.eqb c) (list_ascii_of_string "IOQ")).

Definition validChar (c : ascii) : bool := isDigit c || isVinLetter c.

Definition charsetValid (s : string) : bool :=
  forallb validChar (list_ascii_of_string s).

Definition allDigits (s : string) : bool :=
  forallb isDigit (list_ascii_of_string s).

(** The two tables of the check digit, under the specification's names. *)
Definition CharacterWeightTable : gmap string Z := getCharacterMap.
Definition PositionWeightTable : list Z := weights.

(** "digits map to their own value; letters map through
    CharacterWeightTable". *)
Definition charValue (c : ascii) : Z :=
  if isDigit c then byte c - 48
  else default 0 (CharacterWeightTable !! String c EmptyString).

(** "Multiply each position's value by the corresponding PositionWeightTable
    entry.  Sum all 17 products". *)
Fixpoint weightedSum (values positionWeights : list Z) : Z :=
  match values, positionWeights with
  | v :: values', w :: positionWeights' =>
      v * w + weightedSum values' positionWeights'
  | _, _ => 0
  end.

(** "take modulo 11.  If the remainder is 10, the check character is the
    literal letter X; otherwise it is the decimal digit equal to the
    remainder". *)
Definition CheckCharacter (vin17 : string) : string :=
  let total :=
    weightedSum (map charValue (list_ascii_of_string vin17))
      PositionWeightTable in
  let r := total mod 11 in
  if r =? 10 then "X"
  else String (ascii_of_N (Z.to_N (48 + r))) EmptyString.

(** The integer a string of decimal digits denotes. *)
Fixpoint decimalValue (digits : string) : Z :=
  match digits with
  | EmptyString => 0
  | String d digits' =>
      (byte d - 48) * 10 ^ Z.of_nat (String.length digits')
      + decimalValue digits'
  end.

(** A sign followed by at least one digit, all of the rest digits. *)
Definition isSignedNumeral (s : string) : bool :=
  match s with
  | EmptyString => false
  | String c rest =>
      (Ascii.eqb c "-" || Ascii.eqb c "+")
      && (0 <? String.length rest)%nat && allDigits rest
  end.

(** The agreement of [runeValue] with [charValue] on one byte, as a test that
    can be run on each of the 256 bytes. *)
Definition runeValueAgrees (c : ascii) : bool :=
  if validChar c then
    match runeValue getCharacterMap c with
    | Returns v => (v =? charValue c) && (0 <=? v) && (v <=? 9)
    | Panics _ => false
    end
  else true.

(** * Properties *)

(** A string of length 17, by [H], as its 17 characters. *)
Ltac explode17 s H :=
  do 17 (destruct s as [|? s]; [discriminate H|]);
  destruct s; [clear H | discriminate H].

(** ** Machine integers *)

Lemma wrap_small (z : Z) : minInt <= z <= maxInt -> wrap z = z.
Proof.
  unfold wrap, minInt, maxInt. intros Hz.
  rewrite Z.mod_small; lia.
Qed.

Lemma int_rem_nonneg (a : Z) : 0 <= a -> int_rem a 11 = a mod 11.
Proof.
  intros Ha. unfold int_rem. apply Z.rem_mod_nonneg; lia.
Qed.

(** ** Characters *)

Lemma runeValueAgrees_all (c : ascii) : runeValueAgrees c = true.
Proof.
  destruct c as [[] [] [] [] [] [] [] []]; vm_compute; reflexivity.
Qed.

Lemma runeValue_valid (c : ascii) :
  validChar c = true ->
  runeValue getCharacterMap c = Returns (charValue c) /\ 0 <= charValue c <= 9.
Proof.
  intros Hc. pose proof (runeValueAgrees_all c) as H.
  unfold runeValueAgrees in H. rewrite Hc in H.
  destruct (runeValue getCharacterMap c) as [v|]; [|discriminate].
  apply andb_prop in H as [H H9]. apply andb_prop in H as [Hv H0].
  apply Z.eqb_eq in Hv. subst v. split; [reflexivity|lia].
Qed.

(** ** The loop of [calculateScore] *)

Lemma weights_bound (k : nat) (w : Z) : weights !! k = Some w -> 0 <= w <= 10.
Proof.
  intros Hk.
  assert (Hall : Forall (fun w => 0 <= w <= 10) weights)
    by (unfold weights; repeat constructor; lia).
  rewrite Forall_lookup in Hall. exact (Hall k w Hk).
Qed.

Lemma scoreLoop_sum (s : string) :
  forall (k : nat) (result : Z),
    charsetValid s = true ->
    (k + String.length s <= 17)%nat ->
    0 <= result <= 90 * Z.of_nat k ->
    scoreLoop getCharacterMap weights k s result
    = Returns (result
               + weightedSum (map charValue (list_ascii_of_string s))
                   (drop k weights))
    /\ 0 <= weightedSum (map charValue (list_ascii_of_string s))
               (drop k weights)
         <= 90 * Z.of_nat (String.length s).
Proof.
  induction s as [|c s IH]; intros k result Hvalid Hlen Hres.
  - cbn. split; [f_equal; lia | lia].
  - cbn in Hvalid. apply andb_prop in Hvalid as [Hc Hs].
    destruct (runeValue_valid c Hc) as [Hrune Hrange].
    cbn [String.length] in Hlen |- *.
    assert (Hk : (k < length weights)%nat) by (cbn; lia).
    destruct (lookup_lt_is_Some_2 weights k Hk) as [w Hw].
    pose proof (weights_bound k w Hw) as Hwb.
    destruct (IH (S k) (result + charValue c * w) Hs) as [IHeq IHb];
      [lia | nia |].
    cbn [scoreLoop list_ascii_of_string map]. rewrite Hrune. cbn [bindR].
    rewrite Hw, (drop_S _ _ _ Hw). cbn [weightedSum].
    unfold int_add, int_mul.
    rewrite (wrap_small (charValue c * w))
      by (unfold minInt, maxInt; nia).
    rewrite wrap_small by (unfold minInt, maxInt; nia).
    rewrite IHeq. split; [f_equal; lia | nia].
Qed.

Lemma Itoa_digit (r : Z) :
  0 <= r <= 9 -> Itoa r = String (ascii_of_N (Z.to_N (48 + r))) EmptyString.
Proof.
  intros Hr.
  assert (H : r = 0 \/ r = 1 \/ r = 2 \/ r = 3 \/ r = 4 \/ r = 5 \/ r = 6
              \/ r = 7 \/ r = 8 \/ r = 9) by lia.
  repeat (destruct H as [->|H]; [reflexivity|]). subst r. reflexivity.
Qed.

Lemma calculateScore_refines (s : string) :
  String.length s = 17%nat -> charsetValid s = true ->
  calculateScore s = Returns (CheckCharacter s).
Proof.
  intros Hlen Hvalid.
  destruct (scoreLoop_sum s 0 0 Hvalid) as [Heq Hb]; [lia | lia |].
  unfold calculateScore. rewrite Heq. cbn [bindR drop].
  unfold CheckCharacter, PositionWeightTable.
  set (total := weightedSum _ _) in *.
  rewrite Z.add_0_l, int_rem_nonneg by lia.
  destruct (total mod 11 =? 10) eqn:E; [reflexivity|].
  apply Z.eqb_neq in E. f_equal. apply Itoa_digit.
  pose proof (Z.mod_pos_bound total 11). lia.
Qed.

(** ** Strings of a known length *)

Lemma get_In (s : string) :
  forall (i : nat) (c : ascii),
    String.get i s = Some c -> In c (list_ascii_of_string s).
Proof.
  induction s as [|a s IH]; intros i c Hget; [discriminate|].
  destruct i as [|i]; cbn in Hget |- *.
  - left. congruence.
  - right. eauto.
Qed.

Lemma slice_ok (s : string) (lo hi : nat) :
  (lo <= hi <= String.length s)%nat ->
  slice s lo hi = Returns (substring lo (hi - lo) s).
Proof.
  intros [Hlo Hhi]. unfold slice.
  apply Nat.leb_le in Hlo, Hhi. rewrite Hlo, Hhi. reflexivity.
Qed.

Lemma CheckCharacter_shape (s : string) :
  CheckCharacter s = "X"
  \/ exists d : ascii,
       isDigit d = true /\ CheckCharacter s = String d EmptyString.
Proof.
  unfold CheckCharacter. set (total := weightedSum _ _).
  destruct (total mod 11 =? 10) eqn:E; [left; reflexivity|right].
  apply Z.eqb_neq in E. pose proof (Z.mod_pos_bound total 11) as Hb.
  set (r := total mod 11) in *. eexists. split; [|reflexivity].
  assert (H : r = 0 \/ r = 1 \/ r = 2 \/ r = 3 \/ r = 4 \/ r = 5 \/ r = 6
              \/ r = 7 \/ r = 8 \/ r = 9) by lia.
  repeat (destruct H as [->|H]; [reflexivity|]). rewrite H. reflexivity.
Qed.

(** ** The check digit *)

(** C4: on a 17-character string over the digits and the 23 letters,
    [calculateScore] returns the check character of the specification: each
    character is mapped to its value (a digit to itself, a letter through the
    character table), the values are multiplied by the position weights
    8,7,6,5,4,3,2,10,0,9,8,7,6,5,4,3,2, the 17 products are summed, and the
    sum modulo 11 gives [X] when it is 10 and its decimal digit otherwise. *)
Theorem calculateScore_check_character (fullvin : string) :
  String.length fullvin = 17%nat ->
  charsetValid fullvin = true ->
  let values := map charValue (list_ascii_of_string fullvin) in
  let total :=
    weightedSum values [8; 7; 6; 5; 4; 3; 2; 10; 0; 9; 8; 7; 6; 5; 4; 3; 2] in
  let r := total mod 11 in
  calculateScore fullvin
  = Returns (if r =? 10 then "X"
             else String (ascii_of_N (Z.to_N (48 + r))) EmptyString).
Proof.
  intros Hlen Hvalid. cbv zeta.
  rewrite (calculateScore_refines fullvin Hlen Hvalid). reflexivity.
Qed.

Lemma calculateScore_check_character_witness :
  String.length "1HGCM82633A004352" = 17%nat
  /\ charsetValid "1HGCM82633A004352" = true
  /\ calculateScore "1HGCM82633A004352" = Returns "3".
Proof.
  split; [reflexivity|]. split; [reflexivity|].
  exact (calculateScore_check_character "1HGCM82633A004352" eq_refl eq_refl).
Defined.

(** C10: on a 17-character string over the digits and the 23 letters,
    [calculateScore] does not panic (neither on [Atoi] nor on [weights[k]])
    and returns [X] or one decimal digit; so [ValidateVIN] returns too, with
    [nil] or an error. *)
Theorem calculateScore_returns (fullvin : string) :
  String.length fullvin = 17%nat ->
  charsetValid fullvin = true ->
  (exists score : string,
      calculateScore fullvin = Returns score
      /\ (score = "X"
          \/ exists d : ascii,
               isDigit d = true /\ score = String d EmptyString))
  /\ (exists result : option error, ValidateVIN fullvin = Returns result).
Proof.
  intros Hlen Hvalid.
  pose proof (calculateScore_refines fullvin Hlen Hvalid) as Hscore.
  split.
  - exists (CheckCharacter fullvin). split; [exact Hscore|].
    apply CheckCharacter_shape.
  - unfold ValidateVIN. rewrite Hlen. cbn [Nat.eqb negb].
    destruct (ContainsAny fullvin "IOQ"); [eauto|].
    rewrite slice_ok by lia. rewrite Hscore. cbn [bindR].
    destruct (negb _); eauto.
Qed.

Lemma calculateScore_returns_witness :
  (exists score : string,
      calculateScore "1M8GDM9AXKP042788" = Returns score
      /\ (score = "X"
          \/ exists d : ascii,
               isDigit d = true /\ score = String d EmptyString))
  /\ (exists result : option error,
        ValidateVIN "1M8GDM9AXKP042788" = Returns result).
Proof.
  apply (calculateScore_returns "1M8GDM9AXKP042788"); reflexivity.
Defined.

(** C5: [calculateScore] is a function of its argument, and two
    17-character strings over the character set that differ at position 8
    only get the same check character, which both runs return.  (Two runs
    on the same string are the case of equal strings.) *)
Theorem calculateScore_position8 (fullvin1 fullvin2 : string) :
  String.length fullvin1 = 17%nat ->
  String.length fullvin2 = 17%nat ->
  charsetValid fullvin1 = true ->
  charsetValid fullvin2 = true ->
  (forall i : nat, i <> 8%nat ->
                   String.get i fullvin1 = String.get i fullvin2) ->
  exists score : string,
    calculateScore fullvin1 = Returns score
    /\ calculateScore fullvin2 = Returns score.
Proof.
  intros Hlen1 Hlen2 Hvalid1 Hvalid2 Hsame.
  exists (CheckCharacter fullvin1).
  rewrite (calculateScore_refines _ Hlen1 Hvalid1).
  rewrite (calculateScore_refines _ Hlen2 Hvalid2).
  split; [reflexivity|]. f_equal.
  clear Hvalid1 Hvalid2.
  explode17 fullvin1 Hlen1. explode17 fullvin2 Hlen2.
  pose proof (Hsame 0%nat ltac:(lia)) as H0.
  pose proof (Hsame 1%nat ltac:(lia)) as H1.
  pose proof (Hsame 2%nat ltac:(lia)) as H2.
  pose proof (Hsame 3%nat ltac:(lia)) as H3.
  pose proof (Hsame 4%nat ltac:(lia)) as H4.
  pose proof (Hsame 5%nat ltac:(lia)) as H5.
  pose proof (Hsame 6%nat ltac:(lia)) as H6.
  pose proof (Hsame 7%nat ltac:(lia)) as H7.
  pose proof (Hsame 9%nat ltac:(lia)) as H9.
  pose proof (Hsame 10%nat ltac:(lia)) as H10.
  pose proof (Hsame 11%nat ltac:(lia)) as H11.
  pose proof (Hsame 12%nat ltac:(lia)) as H12.
  pose proof (Hsame 13%nat ltac:(lia)) as H13.
  pose proof (Hsame 14%nat ltac:(lia)) as H14.
  pose proof (Hsame 15%nat ltac:(lia)) as H15.
  pose proof (Hsame 16%nat ltac:(lia)) as H16.
  cbn in H0, H1, H2, H3, H4, H5, H6, H7, H9, H10, H11, H12, H13, H14, H15, H16.
  simplify_eq.
  unfold CheckCharacter, PositionWeightTable, weights.
  cbn [list_ascii_of_string map weightedSum].
  rewrite !Z.mul_0_r. reflexivity.
Qed.

Lemma calculateScore_position8_witness :
  exists score : string,
    calculateScore "1HGCM82633A004352" = Returns score
    /\ calculateScore "1HGCM826X3A004352" = Returns score.
Proof.
  apply (calculateScore_position8 "1HGCM82633A004352" "1HGCM826X3A004352");
    try reflexivity.
  intros i Hi.
  do 17 (destruct i as [|i]; [first [reflexivity | exfalso; lia]|]).
  reflexivity.
Defined.

(** ** Validation *)

(** C6: a string of length 17 with an [I], an [O] or a [Q] somewhere gets
    the illegal-character error from [ValidateVIN], whatever its other
    characters are, also ones the check digit computation could not score. *)
Theorem ValidateVIN_illegal_character (fullvin : string) :
  String.length fullvin = 17%nat ->
  (exists (i : nat) (c : ascii),
      String.get i fullvin = Some c
      /\ (c = "I" \/ c = "O" \/ c = "Q")%char) ->
  ValidateVIN fullvin = Returns (Some IllegalCharacterError).
Proof.
  intros Hlen (i & c & Hget & Hc).
  unfold ValidateVIN. rewrite Hlen. cbn [Nat.eqb negb].
  assert (Hany : ContainsAny fullvin "IOQ" = true).
  { unfold ContainsAny. apply existsb_exists. exists c.
    split; [exact (get_In _ _ _ Hget)|].
    destruct Hc as [-> | [-> | ->] ]; reflexivity. }
  rewrite Hany. reflexivity.
Qed.

Lemma ValidateVIN_illegal_character_witness :
  ValidateVIN "1HGCM82633A0043-I" = Returns (Some IllegalCharacterError)
  /\ calculateScore "1HGCM82633A0043-I" = Panics (PanicNumError ErrSyntax).
Proof.
  split; [|reflexivity].
  apply (ValidateVIN_illegal_character "1HGCM82633A0043-I");
    [reflexivity|].
  exists 16%nat, "I"%char. split; [reflexivity|]. left. reflexivity.
Defined.

(** ** Substrings *)

Lemma length_append (p d : string) :
  String.length (p +:+ d) = (String.length p + String.length d)%nat.
Proof.
  induction p as [|c p IH]; [reflexivity|].
  change (String c p +:+ d) with (String c (p +:+ d)).
  cbn [String.length Nat.add]. f_equal. exact IH.
Qed.

Lemma substring_all (d : string) : substring 0 (String.length d) d = d.
Proof.
  induction d as [|c d IH]; cbn; [reflexivity|]. f_equal. exact IH.
Qed.

Lemma substring_app_left (p d : string) :
  substring 0 (String.length p) (p +:+ d) = p.
Proof.
  induction p as [|c p IH].
  - destruct d; reflexivity.
  - change (String c p +:+ d) with (String c (p +:+ d)).
    cbn [String.length substring]. f_equal. exact IH.
Qed.

Lemma substring_app_right (p d : string) (n : nat) :
  substring (String.length p) n (p +:+ d) = substring 0 n d.
Proof.
  induction p as [|c p IH]; [reflexivity|].
  change (String c p +:+ d) with (String c (p +:+ d)).
  cbn [String.length substring]. exact IH.
Qed.

(** ** [Atoi] on short strings *)

Lemma digit_step (c : ascii) :
  (9 <? (byte c - byte "0") mod 256) = negb (isDigit c).
Proof.
  destruct c as [[] [] [] [] [] [] [] []]; reflexivity.
Qed.

Lemma digit_not_sign (c : ascii) :
  isDigit c && (Ascii.eqb c "-" || Ascii.eqb c "+") = false.
Proof.
  destruct c as [[] [] [] [] [] [] [] []]; reflexivity.
Qed.

Lemma digit_value (c : ascii) :
  isDigit c = true ->
  (byte c - byte "0") mod 256 = byte c - 48 /\ 0 <= byte c - 48 <= 9.
Proof.
  unfold isDigit. intros H. apply andb_prop in H as [Hlo Hhi].
  change (byte "0") with 48. rewrite Z.mod_small; lia.
Qed.

Lemma step_nonneg (c : ascii) : 0 <= (byte c - byte "0") mod 256.
Proof.
  pose proof (Z.mod_pos_bound (byte c - byte "0") 256). lia.
Qed.

Lemma atoi_fast_digits (s : string) :
  forall n : Z,
    allDigits s = true ->
    atoi_fast s n
    = Some (n * 10 ^ Z.of_nat (String.length s) + decimalValue s).
Proof.
  induction s as [|c s IH]; intros n Hs.
  - cbn. f_equal. lia.
  - cbn in Hs. apply andb_prop in Hs as [Hc Hs].
    destruct (digit_value c Hc) as [Hval _].
    cbn [atoi_fast decimalValue String.length].
    rewrite digit_step, Hc, Hval. cbn [negb].
    rewrite (IH _ Hs), Nat2Z.inj_succ, Z.pow_succ_r by lia.
    f_equal. ring.
Qed.

Lemma atoi_fast_not_digits (s : string) :
  forall n : Z, allDigits s = false -> atoi_fast s n = None.
Proof.
  induction s as [|c s IH]; intros n Hs; [discriminate|].
  cbn in Hs. cbn [atoi_fast]. rewrite digit_step.
  destruct (isDigit c); [|reflexivity].
  cbn [negb]. apply IH. exact Hs.
Qed.

Lemma atoi_fast_nonneg (s : string) :
  forall n m : Z, 0 <= n -> atoi_fast s n = Some m -> 0 <= m.
Proof.
  induction s as [|c s IH]; intros n m Hn Hm; cbn [atoi_fast] in Hm.
  - congruence.
  - pose proof (step_nonneg c) as Hstep.
    destruct (9 <? _); [discriminate|].
    eapply IH; [|exact Hm]. lia.
Qed.

Lemma decimalValue_nonneg (s : string) :
  allDigits s = true -> 0 <= decimalValue s.
Proof.
  induction s as [|c s IH]; intros Hs; cbn; [lia|].
  cbn in Hs. apply andb_prop in Hs as [Hc Hs].
  destruct (digit_value c Hc) as [_ Hd]. specialize (IH Hs).
  assert (0 <= 10 ^ Z.of_nat (String.length s)) by (apply Z.pow_nonneg; lia).
  nia.
Qed.

Lemma short_fast_path (s : string) :
  (0 < String.length s < 19)%nat ->
  ((0 <? String.length s) && (String.length s <? 19))%nat = true.
Proof.
  intros [H0 H19]. apply Nat.ltb_lt in H0, H19. rewrite H0, H19. reflexivity.
Qed.

(** The digits alone: the number they denote. *)
Lemma Atoi_digits (s : string) :
  (0 < String.length s < 19)%nat ->
  allDigits s = true ->
  Atoi s = (decimalValue s, None).
Proof.
  intros Hlen Hs. unfold Atoi. rewrite (short_fast_path s Hlen).
  destruct s as [|c0 rest]; [cbn in Hlen; lia|].
  pose proof (digit_not_sign c0) as Hsign.
  pose proof Hs as Hs'. cbn in Hs'. apply andb_prop in Hs' as [Hc0 _].
  rewrite Hc0 in Hsign. cbn [andb] in Hsign.
  apply orb_false_elim in Hsign as [Hminus Hplus].
  rewrite Hminus, Hplus. cbn [orb andb].
  rewrite (atoi_fast_digits _ 0 Hs), Z.mul_0_l. reflexivity.
Qed.

(** A minus sign and digits: the negated number. *)
Lemma Atoi_minus (rest : string) :
  (0 < String.length rest < 18)%nat ->
  allDigits rest = true ->
  Atoi (String "-" rest) = (- decimalValue rest, None).
Proof.
  intros Hlen Hs. unfold Atoi.
  rewrite short_fast_path by (cbn; lia).
  change (Ascii.eqb "-" "-") with true. cbn [orb andb].
  assert (Hpos : (String.length rest <? 1)%nat = false)
    by (apply Nat.ltb_ge; lia).
  rewrite Hpos, (atoi_fast_digits _ 0 Hs), Z.mul_0_l. reflexivity.
Qed.

(** Anything else of at most 18 bytes: zero, with a syntax error. *)
Lemma Atoi_not_numeral (s : string) :
  (String.length s < 19)%nat ->
  allDigits s = false ->
  isSignedNumeral s = false ->
  Atoi s = (0, Some ErrSyntax).
Proof.
  intros Hlen Hs Hsigned. destruct s as [|c0 rest]; [discriminate|].
  unfold Atoi. rewrite short_fast_path by (cbn in *; lia).
  cbn [isSignedNumeral] in Hsigned.
  destruct (Ascii.eqb c0 "-" || Ascii.eqb c0 "+") eqn:Hsign.
  - cbn [andb] in Hsigned |- *.
    destruct rest as [|c1 rest']; [reflexivity|].
    change (String.length (String c1 rest') <? 1)%nat with false.
    change (0 <? String.length (String c1 rest'))%nat with true in Hsigned.
    cbn [andb] in Hsigned.
    rewrite (atoi_fast_not_digits _ 0 Hsigned). reflexivity.
  - cbn [andb]. rewrite (atoi_fast_not_digits _ 0 Hs). reflexivity.
Qed.

(** No minus sign in front: not negative. *)
Lemma Atoi_nonneg (s : string) :
  (String.length s < 19)%nat ->
  String.get 0 s <> Some "-"%char ->
  0 <= (Atoi s).1.
Proof.
  intros Hlen Hminus. destruct s as [|c0 rest]; [cbn; lia|].
  unfold Atoi. rewrite short_fast_path by (cbn in *; lia).
  assert (Hc0 : Ascii.eqb c0 "-" = false).
  { apply Ascii.eqb_neq. intros ->. apply Hminus. reflexivity. }
  rewrite Hc0.
  destruct (_ && _); [cbn; lia|].
  destruct (atoi_fast _ 0) as [n|] eqn:Hn; [|cbn; lia].
  cbn. apply (atoi_fast_nonneg _ 0 n ltac:(lia) Hn).
Qed.

(** ** Decomposition *)

Lemma getUniqueSerial_long (fullvin : string) :
  (11 <= String.length fullvin)%nat ->
  getUniqueSerial fullvin
  = Returns (substring 0 11 fullvin,
             (Atoi (substring 11 (String.length fullvin - 11) fullvin)).1).
Proof.
  intros Hlen. unfold getUniqueSerial, slice_from, slice_to.
  rewrite !slice_ok by lia. reflexivity.
Qed.

Lemma getUniqueSerial_short (fullvin : string) :
  (String.length fullvin < 11)%nat ->
  getUniqueSerial fullvin = Panics SliceBoundsOutOfRange.
Proof.
  intros Hlen. unfold getUniqueSerial, slice_from, slice.
  assert (H : (11 <=? String.length fullvin)%nat = false)
    by (apply Nat.leb_gt; lia).
  rewrite H. reflexivity.
Qed.

(** C8: a 17-character string made of an 11-character prefix and 6 decimal
    digits is taken apart by [getUniqueSerial] into that prefix and the
    integer the 6 digits denote. *)
Theorem getUniqueSerial_round_trip (prefix digits : string) :
  String.length prefix = 11%nat ->
  String.length digits = 6%nat ->
  allDigits digits = true ->
  getUniqueSerial (prefix +:+ digits) = Returns (prefix, decimalValue digits).
Proof.
  intros Hprefix Hdigits Hall.
  rewrite getUniqueSerial_long by (rewrite length_append; lia).
  rewrite length_append, Hprefix, Hdigits.
  change (11 + 6 - 11)%nat with 6%nat.
  rewrite <- Hprefix at 1 2. rewrite substring_app_left.
  rewrite substring_app_right, <- Hdigits, substring_all.
  rewrite Atoi_digits by (rewrite ?Hdigits; auto with lia).
  reflexivity.
Qed.

Lemma getUniqueSerial_round_trip_witness :
  getUniqueSerial "1HGCM82633A004352" = Returns ("1HGCM82633A", 4352).
Proof.
  exact (getUniqueSerial_round_trip "1HGCM82633A" "004352"
           eq_refl eq_refl eq_refl).
Defined.

Lemma tail_of_17 (fullvin : string) :
  String.length fullvin = 17%nat ->
  String.length (substring 11 6 fullvin) = 6%nat
  /\ String.get 0 (substring 11 6 fullvin) = String.get 11 fullvin.
Proof.
  intros Hlen. explode17 fullvin Hlen. split; reflexivity.
Qed.

(** ** The decoder *)

Section DecoderProperties.

Context {WMInfo_t VDSInfo_t Manufacturer_t : Type}.
Context (Manufacturer : WMInfo_t -> Manufacturer_t).
Context (WMInfo_zero : WMInfo_t) (VDSInfo_zero : VDSInfo_t).
Context (FindWMInfo : string -> WMInfo_t * option error).
Context (FindVDSInfo :
           Manufacturer_t -> string -> list Z -> VDSInfo_t * option error).
Context (getCharWeight : string -> Z) (yearAt : nat -> Z).

Local Abbreviation manufactureYear' :=
  (manufactureYear Manufacturer_t getCharWeight yearAt).
Local Abbreviation deconstruct' :=
  (deconstruct WMInfo_t VDSInfo_t Manufacturer_t Manufacturer
     FindWMInfo FindVDSInfo getCharWeight yearAt).
Local Abbreviation newVIN' :=
  (newVIN WMInfo_t VDSInfo_t Manufacturer_t Manufacturer
     WMInfo_zero VDSInfo_zero FindWMInfo FindVDSInfo getCharWeight yearAt).
Local Abbreviation BuildInfo' :=
  (BuildInfo WMInfo_t VDSInfo_t Manufacturer_t Manufacturer
     WMInfo_zero VDSInfo_zero FindWMInfo FindVDSInfo getCharWeight yearAt).

(** *** Model years *)

Lemma manufactureYear_no_weight (digit : string) (w : World Manufacturer_t) :
  getCharWeight digit = 0 ->
  manufactureYear' digit w = (Returns ([], Some NoWeightError), w).
Proof.
  intros Hw. unfold manufactureYear. rewrite Hw. reflexivity.
Qed.

Lemma manufactureYear_weight (digit : string) (w : World Manufacturer_t) :
  getCharWeight digit <> 0 ->
  manufactureYear' digit w
  = (Returns (yearsLoop (getCharWeight digit) (yearAt (ticks w))
                [1980; 2010] [], None),
     mkWorld (calls w) (S (ticks w))).
Proof.
  intros Hw. unfold manufactureYear.
  apply Z.eqb_neq in Hw. rewrite Hw. reflexivity.
Qed.

(** C3, as the code has it: a character of weight 0 gets the error "unable to
    get a weight", and only such a character gets an error; with 2025 as the
    current year, a character of weight [cw] from 1 to 14 gets
    [1980 + cw; 2010 + cw], and one of weight 15 to 29 gets [1980 + cw]
    alone. *)
Theorem manufactureYear_2025 (digit : string) (w : World Manufacturer_t) :
  yearAt (ticks w) = 2025 ->
  let cw := getCharWeight digit in
  (cw = 0 ->
   manufactureYear' digit w = (Returns ([], Some NoWeightError), w))
  /\ (forall ys err w',
        manufactureYear' digit w = (Returns (ys, Some err), w') -> cw = 0)
  /\ (1 <= cw <= 14 ->
      manufactureYear' digit w
      = (Returns ([1980 + cw; 2010 + cw], None),
         mkWorld (calls w) (S (ticks w))))
  /\ (15 <= cw <= 29 ->
      manufactureYear' digit w
      = (Returns ([1980 + cw], None), mkWorld (calls w) (S (ticks w)))).
Proof.
  intros Hyear cw. repeat split.
  - apply manufactureYear_no_weight.
  - intros ys err w' Hrun.
    destruct (Z.eq_dec cw 0) as [|Hne]; [assumption|].
    rewrite (manufactureYear_weight digit w Hne) in Hrun. discriminate.
  - intros Hcw. rewrite manufactureYear_weight by (fold cw; lia).
    fold cw. rewrite Hyear. cbn [yearsLoop]. unfold int_add.
    rewrite !wrap_small by (unfold minInt, maxInt; lia).
    destruct (1980 + cw <? 2025) eqn:E1; [|apply Z.ltb_ge in E1; lia].
    destruct (2010 + cw <? 2025) eqn:E2; [|apply Z.ltb_ge in E2; lia].
    reflexivity.
  - intros Hcw. rewrite manufactureYear_weight by (fold cw; lia).
    fold cw. rewrite Hyear. cbn [yearsLoop]. unfold int_add.
    rewrite !wrap_small by (unfold minInt, maxInt; lia).
    destruct (1980 + cw <? 2025) eqn:E1; [|apply Z.ltb_ge in E1; lia].
    destruct (2010 + cw <? 2025) eqn:E2; [apply Z.ltb_lt in E2; lia|].
    reflexivity.
Qed.

(** *** [deconstruct] *)

Lemma deconstruct_short (m : VIN WMInfo_t VDSInfo_t)
  (w : World Manufacturer_t) :
  (String.length (Full m) < 11)%nat ->
  deconstruct' m w = (Panics SliceBoundsOutOfRange, w).
Proof.
  intros Hlen. unfold deconstruct, bindM, liftR.
  rewrite (getUniqueSerial_short _ Hlen). reflexivity.
Qed.

(** The stages of [deconstruct] on a string long enough to be sliced. *)
Lemma deconstruct_long (m : VIN WMInfo_t VDSInfo_t)
  (w : World Manufacturer_t) :
  (11 <= String.length (Full m))%nat ->
  let unique := substring 0 11 (Full m) in
  let serial :=
    (Atoi (substring 11 (String.length (Full m) - 11) (Full m))).1 in
  let found := FindWMInfo unique in
  let w1 := mkWorld (calls w ++ [CallFindWMInfo unique]) (ticks w) in
  let digit := substring 9 1 (Full m) in
  let ys :=
    yearsLoop (getCharWeight digit) (yearAt (ticks w)) [1980; 2010] [] in
  deconstruct' m w
  = match found.2 with
    | Some err =>
        (Returns (mkVIN (Full m) unique serial (WMInfo m) (VDSInfo m),
                  Some err), w1)
    | None =>
        let m' := mkVIN (Full m) unique serial found.1 (VDSInfo m) in
        if getCharWeight digit =? 0
        then (Returns (m', Some NoWeightError), w1)
        else
          (Returns (m', (FindVDSInfo (Manufacturer found.1) unique ys).2),
           mkWorld
             (calls w
              ++ [CallFindWMInfo unique;
                  CallFindVDSInfo (Manufacturer found.1) unique ys])
             (S (ticks w)))
    end.
Proof.
  intros Hlen. cbv zeta.
  unfold deconstruct, bindM, liftR, callFindWMInfo, callFindVDSInfo, retM.
  rewrite (getUniqueSerial_long _ Hlen). cbn [fst snd Full Unique Serial].
  destruct (FindWMInfo _).2 as [err|]; [reflexivity|].
  rewrite slice_ok by lia. change (10 - 9)%nat with 1%nat.
  unfold manufactureYear, bindM, timeNowYear, retM.
  destruct (getCharWeight _ =? 0); [reflexivity|].
  cbn [fst snd calls ticks]. rewrite <- app_assoc. reflexivity.
Qed.

Lemma BuildInfo_short (fullvin : string) (w : World Manufacturer_t) :
  (String.length fullvin < 11)%nat ->
  BuildInfo' fullvin w = (Panics SliceBoundsOutOfRange, w).
Proof.
  intros Hlen. unfold BuildInfo, newVIN, bindM.
  rewrite deconstruct_short by exact Hlen. reflexivity.
Qed.

(** What a VIN that [newVIN] returns holds. *)
Lemma newVIN_fields (fullvin : string) (w w' : World Manufacturer_t)
  (vin : VIN WMInfo_t VDSInfo_t) :
  newVIN' fullvin w = (Returns (Some vin, None), w') ->
  (11 <= String.length fullvin)%nat
  /\ vin = mkVIN fullvin (substring 0 11 fullvin)
             (Atoi (substring 11 (String.length fullvin - 11) fullvin)).1
             (FindWMInfo (substring 0 11 fullvin)).1 VDSInfo_zero.
Proof.
  intros Hrun. unfold newVIN, bindM, retM in Hrun.
  destruct (le_lt_dec 11 (String.length fullvin)) as [Hlen|Hlen];
    [|rewrite deconstruct_short in Hrun by exact Hlen; discriminate].
  split; [exact Hlen|].
  pose proof (deconstruct_long
                (mkVIN fullvin EmptyString 0 WMInfo_zero VDSInfo_zero) w Hlen)
    as E.
  cbv zeta in E. cbn [Full WMInfo VDSInfo] in E. rewrite E in Hrun. clear E.
  destruct (FindWMInfo (substring 0 11 fullvin)) as [wmiInfo [err|]];
    cbn [fst snd] in Hrun |- *; [discriminate|].
  destruct (getCharWeight _ =? 0); [discriminate|].
  cbn [fst snd] in Hrun.
  destruct (FindVDSInfo _ _ _) as [vdsInfo [err|]];
    cbn [fst snd] in Hrun; [discriminate|].
  congruence.
Qed.


(** What [BuildInfo] returns is what [newVIN] returns. *)
Lemma BuildInfo_fields (fullvin : string) (w w' : World Manufacturer_t)
  (vin : VIN WMInfo_t VDSInfo_t) :
  BuildInfo' fullvin w = (Returns (Some vin, None), w') ->
  (11 <= String.length fullvin)%nat
  /\ vin = mkVIN fullvin (substring 0 11 fullvin)
             (Atoi (substring 11 (String.length fullvin - 11) fullvin)).1
             (FindWMInfo (substring 0 11 fullvin)).1 VDSInfo_zero.
Proof.
  intros Hrun.
  destruct (le_lt_dec 11 (String.length fullvin)) as [Hlen|Hlen];
    [|rewrite BuildInfo_short in Hrun by exact Hlen; discriminate].
  unfold BuildInfo, bindM, retM in Hrun.
  destruct (newVIN' fullvin w) as [[[[vin1|] [err|]]|p] w1] eqn:Hnew;
    cbn [fst snd] in Hrun; try discriminate.
  destruct (newVIN_fields _ _ _ _ Hnew) as [_ Hvin1].
  pose proof (deconstruct_long vin1 w1) as E.
  rewrite Hvin1 in E, Hrun. cbn [Full WMInfo VDSInfo] in E.
  specialize (E Hlen). cbv zeta in E. rewrite E in Hrun. clear E.
  split; [exact Hlen|].
  destruct (FindWMInfo (substring 0 11 fullvin)) as [wmiInfo [err|]];
    cbn [fst snd] in Hrun |- *; [discriminate|].
  destruct (getCharWeight _ =? 0); [discriminate|].
  cbn [fst snd] in Hrun.
  destruct (FindVDSInfo _ _ _) as [vdsInfo [err|]];
    cbn [fst snd] in Hrun; [discriminate|].
  congruence.
Qed.

(** The [VDSInfo] field of a VIN that [BuildInfo] returns is the zero value:
    no run of [deconstruct] assigns it. *)
Lemma BuildInfo_VDSInfo_zero (fullvin : string) (w w' : World Manufacturer_t)
  (vin : VIN WMInfo_t VDSInfo_t) :
  BuildInfo' fullvin w = (Returns (Some vin, None), w') ->
  VDSInfo vin = VDSInfo_zero.
Proof.
  intros Hrun. destruct (BuildInfo_fields _ _ _ _ Hrun) as [_ ->].
  reflexivity.
Qed.

(** C7, as the code has it: the [Serial] of a VIN built from a 17-character
    string is what [Atoi] makes of positions 11 to 16.  It is not negative
    unless position 11 is a minus sign; it is the number the six characters
    denote when they are all digits; it is zero when they are neither all
    digits nor a sign followed by digits; and it is the negated number when
    they are a minus sign followed by five digits. *)
Theorem newVIN_Serial (fullvin : string) (w w' : World Manufacturer_t)
  (vin : VIN WMInfo_t VDSInfo_t) :
  String.length fullvin = 17%nat ->
  newVIN' fullvin w = (Returns (Some vin, None), w') ->
  let tail := substring 11 6 fullvin in
  (String.get 11 fullvin <> Some "-"%char -> 0 <= Serial vin)
  /\ (allDigits tail = true -> Serial vin = decimalValue tail)
  /\ (allDigits tail = false -> isSignedNumeral tail = false ->
      Serial vin = 0)
  /\ (forall rest : string,
        tail = String "-" rest -> allDigits rest = true ->
        Serial vin = - decimalValue rest).
Proof.
  intros Hlen Hrun tail.
  destruct (newVIN_fields _ _ _ _ Hrun) as [_ ->]. cbn [Serial].
  rewrite Hlen. change (17 - 11)%nat with 6%nat. fold tail.
  destruct (tail_of_17 fullvin Hlen) as [Htail Hget]. fold tail in Htail, Hget.
  repeat split.
  - intros Hminus. apply Atoi_nonneg; [lia|]. rewrite Hget. exact Hminus.
  - intros Hdigits. rewrite Atoi_digits by (auto with lia). reflexivity.
  - intros Hdigits Hsigned.
    rewrite Atoi_not_numeral by (auto with lia). reflexivity.
  - intros rest Hrest Hdigits. rewrite Hrest in Htail |- *.
    cbn [String.length] in Htail.
    rewrite Atoi_minus by (auto with lia). reflexivity.
Qed.

(** C1, as the code has it: [BuildInfo] runs no validator.  On a string of
    at least 11 bytes it never panics, and its first stage is the WMI lookup
    on the first 11 bytes: when that lookup fails, [BuildInfo] returns the
    lookup's error as it is, having called nothing else.  The length check is
    [ValidateVIN]'s, which gives the length error for the empty string. *)
Theorem BuildInfo_first_stage (fullvin : string) (w : World Manufacturer_t) :
  (11 <= String.length fullvin)%nat ->
  ValidateVIN EmptyString = Returns (Some LengthError)
  /\ (exists r w', BuildInfo' fullvin w = (Returns r, w'))
  /\ (forall err : error,
        (FindWMInfo (substring 0 11 fullvin)).2 = Some err ->
        BuildInfo' fullvin w
        = (Returns (None, Some err),
           mkWorld (calls w ++ [CallFindWMInfo (substring 0 11 fullvin)])
             (ticks w))).
Proof.
  intros Hlen. split; [reflexivity|].
  unfold BuildInfo, newVIN, bindM, retM.
  pose proof (deconstruct_long
                (mkVIN fullvin EmptyString 0 WMInfo_zero VDSInfo_zero) w Hlen)
    as E.
  cbv zeta in E. cbn [Full WMInfo VDSInfo] in E. rewrite E. clear E.
  destruct (FindWMInfo (substring 0 11 fullvin)) as [wmiInfo [err|]] eqn:Hfound;
    cbn [fst snd].
  - split; [eauto|]. intros err' [= <-]. reflexivity.
  - split; [|discriminate].
    destruct (getCharWeight (substring 9 1 fullvin) =? 0) eqn:Hweight;
      cbn [fst snd]; [eauto|].
    destruct (FindVDSInfo _ _ _) as [vdsInfo [err|]]; cbn [fst snd]; [eauto|].
    match goal with
    | |- context [deconstruct _ _ _ _ _ _ _ _ ?m ?w2] =>
        pose proof (deconstruct_long m w2 Hlen) as E
    end.
    cbv zeta in E. cbn [Full WMInfo VDSInfo calls ticks] in E.
    rewrite Hfound, Hweight in E. cbn [fst snd] in E. rewrite E. clear E.
    destruct (FindVDSInfo _ _ _) as [vdsInfo' [err|]]; cbn [fst snd]; eauto.
Qed.

End DecoderProperties.

(** ** The decoder on examples *)

(** C1, where the claim fails: [ValidateVIN] gives the length error for the
    empty string, [BuildInfo] panics on it, slicing past its end; and a
    string [ValidateVIN] rejects for its check digit is decoded by
    [BuildInfo] all the same. *)
Lemma BuildInfo_runs_no_validator :
  ValidateVIN EmptyString = Returns (Some LengthError)
  /\ Fixture.BuildInfo EmptyString Fixture.w0
     = (Panics SliceBoundsOutOfRange, Fixture.w0)
  /\ ValidateVIN "1HGCM82643A004352"
     = Returns (Some (CheckDigitError "4" "3"))
  /\ (Fixture.BuildInfo "1HGCM82643A004352" Fixture.w0).1
     = Returns
         (Some (mkVIN "1HGCM82643A004352" "1HGCM82643A" 4352 Fixture.honda
                  Fixture.zeroVDSInfo), None).
Proof.
  repeat split; vm_compute; reflexivity.
Qed.

Lemma BuildInfo_first_stage_witness :
  (11 <= String.length "2HGCM82633A004352")%nat
  /\ Fixture.BuildInfo "2HGCM82633A004352" Fixture.w0
     = (Returns (None, Some (errors_New "manufacturer not found")),
        mkWorld [CallFindWMInfo "2HGCM82633A"] 0).
Proof.
  assert (Hlen : (11 <= String.length "2HGCM82633A004352")%nat)
    by (cbn; lia).
  split; [exact Hlen|].
  exact (proj2 (proj2
           (BuildInfo_first_stage Fixture.wmManufacturer Fixture.zeroWMInfo
              Fixture.zeroVDSInfo Fixture.FindWMInfo Fixture.FindVDSInfo
              Fixture.getCharWeight Fixture.yearAt
              "2HGCM82633A004352" Fixture.w0 Hlen))
           (errors_New "manufacturer not found") eq_refl).
Defined.

(** The scenario's VIN through [BuildInfo], with the calls it makes. *)
Lemma BuildInfo_honda :
  Fixture.BuildInfo "1HGCM82633A004352" Fixture.w0
  = (Returns (Some Fixture.hondaVIN, None),
     mkWorld
       [CallFindWMInfo "1HGCM82633A";
        CallFindVDSInfo "Honda" "1HGCM82633A" [2003];
        CallFindWMInfo "1HGCM82633A";
        CallFindVDSInfo "Honda" "1HGCM82633A" [2003]] 2).
Proof.
  vm_compute. reflexivity.
Qed.

(** C2, where the code fails the claim: the VDS lookup is called with the
    manufacturer, the prefix and the years, and finds a record, but the VIN
    that [BuildInfo] returns has the zero value in its [VDSInfo] field. *)
Theorem BuildInfo_discards_VDSInfo :
  Fixture.BuildInfo "1HGCM82633A004352" Fixture.w0
  = (Returns (Some Fixture.hondaVIN, None),
     mkWorld
       [CallFindWMInfo "1HGCM82633A";
        CallFindVDSInfo "Honda" "1HGCM82633A" [2003];
        CallFindWMInfo "1HGCM82633A";
        CallFindVDSInfo "Honda" "1HGCM82633A" [2003]] 2)
  /\ Fixture.FindVDSInfo "Honda" "1HGCM82633A" [2003] = (Fixture.sedan, None)
  /\ VDSInfo Fixture.hondaVIN = Fixture.zeroVDSInfo
  /\ VDSInfo Fixture.hondaVIN <> Fixture.sedan.
Proof.
  split; [exact BuildInfo_honda|].
  repeat split; try (vm_compute; reflexivity).
  vm_compute. discriminate.
Qed.

(** C3, where the claim fails: the character of offset 0 gets the error,
    not the years 1980 and 2010. *)
Lemma manufactureYear_offset_zero :
  Fixture.ModelYearTable !! "A" = Some 0
  /\ Fixture.yearAt (ticks Fixture.w0) = 2025
  /\ Fixture.manufactureYear "A" Fixture.w0
     = (Returns ([], Some NoWeightError), Fixture.w0).
Proof.
  repeat split; vm_compute; reflexivity.
Qed.

Lemma manufactureYear_2025_witness :
  Fixture.yearAt (ticks Fixture.w0) = 2025
  /\ Fixture.manufactureYear "B" Fixture.w0
     = (Returns ([1981; 2011], None), mkWorld [] 1).
Proof.
  split; [reflexivity|].
  apply (proj1 (proj2 (proj2
           (manufactureYear_2025 Fixture.getCharWeight Fixture.yearAt
              "B" Fixture.w0 eq_refl)))).
  vm_compute. split; discriminate.
Defined.

(** C7, where the claim fails: a minus sign at position 11 makes the serial
    negative, and a plus sign there is parsed although the six characters
    are not all digits. *)
Lemma Serial_with_a_sign :
  String.length "1HGCM8264BA-00001" = 17%nat
  /\ (Fixture.newVIN "1HGCM8264BA-00001" Fixture.w0).1
     = Returns
         (Some (mkVIN "1HGCM8264BA-00001" "1HGCM8264BA" (-1) Fixture.honda
                  Fixture.zeroVDSInfo), None)
  /\ allDigits "+00007" = false
  /\ (Fixture.newVIN "1HGCM8264BA+00007" Fixture.w0).1
     = Returns
         (Some (mkVIN "1HGCM8264BA+00007" "1HGCM8264BA" 7 Fixture.honda
                  Fixture.zeroVDSInfo), None).
Proof.
  repeat split; vm_compute; reflexivity.
Qed.

Lemma newVIN_Serial_witness :
  String.length "1HGCM82633A004352" = 17%nat
  /\ Fixture.newVIN "1HGCM82633A004352" Fixture.w0
     = (Returns (Some Fixture.hondaVIN, None),
        mkWorld
          [CallFindWMInfo "1HGCM82633A";
           CallFindVDSInfo "Honda" "1HGCM82633A" [2003]] 1)
  /\ 0 <= Serial Fixture.hondaVIN
  /\ Serial Fixture.hondaVIN = decimalValue "004352".
Proof.
  split; [reflexivity|]. split; [reflexivity|].
  pose proof (newVIN_Serial Fixture.wmManufacturer Fixture.zeroWMInfo
                Fixture.zeroVDSInfo Fixture.FindWMInfo Fixture.FindVDSInfo
                Fixture.getCharWeight Fixture.yearAt
                "1HGCM82633A004352" Fixture.w0 _ Fixture.hondaVIN
                eq_refl eq_refl) as (Hnonneg & Hdigits & _).
  split; [apply Hnonneg; discriminate | apply Hdigits; reflexivity].
Defined.



(** * Further properties of the code *)

(** ** Characters outside the set *)

(** A byte that is neither a digit nor one of the 23 letters has no value:
    the map has no entry for it and [Atoi] rejects it. *)
Lemma runeValue_invalid (c : ascii) :
  validChar c = false ->
  runeValue getCharacterMap c = Panics (PanicNumError ErrSyntax).
Proof.
  destruct c as [[] [] [] [] [] [] [] []]; intros Hc;
    solve [reflexivity | vm_compute in Hc; discriminate Hc].
Qed.

Lemma validChar_not_reserved (c : ascii) :
  validChar c = true ->
  existsb (Ascii.eqb c) (list_ascii_of_string "IOQ") = false.
Proof.
  destruct c as [[] [] [] [] [] [] [] []]; intros Hc;
    solve [reflexivity | vm_compute in Hc; discriminate Hc].
Qed.

Lemma charsetValid_no_reserved (s : string) :
  charsetValid s = true -> ContainsAny s "IOQ" = false.
Proof.
  induction s as [|c s IH]; intros Hs; [reflexivity|].
  unfold charsetValid in Hs, IH.
  cbn [list_ascii_of_string forallb] in Hs.
  apply andb_prop in Hs as [Hc Hs].
  change (ContainsAny (String c s) "IOQ")
    with (existsb (Ascii.eqb c) (list_ascii_of_string "IOQ")
          || ContainsAny s "IOQ").
  rewrite (validChar_not_reserved c Hc), (IH Hs). reflexivity.
Qed.

Lemma scoreLoop_invalid (s : string) :
  forall (k : nat) (result : Z),
    (k + String.length s <= 17)%nat ->
    charsetValid s = false ->
    scoreLoop getCharacterMap weights k s result
    = Panics (PanicNumError ErrSyntax).
Proof.
  induction s as [|c s IH]; intros k result Hlen Hs; [discriminate|].
  cbn [String.length] in Hlen. cbn [scoreLoop].
  unfold charsetValid in Hs. cbn [list_ascii_of_string forallb] in Hs.
  destruct (validChar c) eqn:Hc.
  - destruct (runeValue_valid c Hc) as [-> _]. cbn [bindR].
    assert (Hk : (k < length weights)%nat) by (cbn; lia).
    destruct (lookup_lt_is_Some_2 weights k Hk) as [w ->].
    apply IH; [lia | exact Hs].
  - rewrite (runeValue_invalid c Hc). reflexivity.
Qed.

Lemma scoreLoop_too_long (s : string) :
  forall (k : nat) (result : Z),
    (k <= 17)%nat ->
    (17 < k + String.length s)%nat ->
    charsetValid s = true ->
    scoreLoop getCharacterMap weights k s result = Panics IndexOutOfRange.
Proof.
  induction s as [|c s IH]; intros k result Hk Hlen Hs.
  - cbn [String.length] in Hlen. lia.
  - cbn [String.length] in Hlen. cbn [scoreLoop].
    unfold charsetValid in Hs. cbn [list_ascii_of_string forallb] in Hs.
    apply andb_prop in Hs as [Hc Hs].
    destruct (runeValue_valid c Hc) as [-> _]. cbn [bindR].
    destruct (weights !! k) as [w|] eqn:Hw; [|reflexivity].
    apply lookup_lt_Some in Hw. cbn in Hw.
    apply IH; [lia | lia | exact Hs].
Qed.

(** [ValidateVIN] on a 17-character string over the character set: the
    comparison of position 8 with the check character. *)
Lemma ValidateVIN_charset_valid (fullvin : string) :
  String.length fullvin = 17%nat ->
  charsetValid fullvin = true ->
  ValidateVIN fullvin
  = if String.eqb (substring 8 1 fullvin) (CheckCharacter fullvin)
    then Returns None
    else Returns (Some (CheckDigitError (substring 8 1 fullvin)
                          (CheckCharacter fullvin))).
Proof.
  intros Hlen Hvalid. unfold ValidateVIN.
  rewrite Hlen, (charsetValid_no_reserved _ Hvalid). cbn [Nat.eqb negb].
  rewrite slice_ok by lia.
  rewrite (calculateScore_refines _ Hlen Hvalid). cbn [bindR].
  change (9 - 8)%nat with 1%nat.
  destruct (String.eqb _ _); reflexivity.
Qed.

Lemma CheckCharacter_position8 (s1 s2 : string) :
  String.length s1 = 17%nat ->
  String.length s2 = 17%nat ->
  (forall i : nat, i <> 8%nat -> String.get i s1 = String.get i s2) ->
  CheckCharacter s1 = CheckCharacter s2.
Proof.
  intros Hlen1 Hlen2 Hsame.
  explode17 s1 Hlen1. explode17 s2 Hlen2.
  pose proof (Hsame 0%nat ltac:(lia)) as H0.
  pose proof (Hsame 1%nat ltac:(lia)) as H1.
  pose proof (Hsame 2%nat ltac:(lia)) as H2.
  pose proof (Hsame 3%nat ltac:(lia)) as H3.
  pose proof (Hsame 4%nat ltac:(lia)) as H4.
  pose proof (Hsame 5%nat ltac:(lia)) as H5.
  pose proof (Hsame 6%nat ltac:(lia)) as H6.
  pose proof (Hsame 7%nat ltac:(lia)) as H7.
  pose proof (Hsame 9%nat ltac:(lia)) as H9.
  pose proof (Hsame 10%nat ltac:(lia)) as H10.
  pose proof (Hsame 11%nat ltac:(lia)) as H11.
  pose proof (Hsame 12%nat ltac:(lia)) as H12.
  pose proof (Hsame 13%nat ltac:(lia)) as H13.
  pose proof (Hsame 14%nat ltac:(lia)) as H14.
  pose proof (Hsame 15%nat ltac:(lia)) as H15.
  pose proof (Hsame 16%nat ltac:(lia)) as H16.
  clear Hsame.
  cbn in H0, H1, H2, H3, H4, H5, H6, H7, H9, H10, H11, H12, H13, H14, H15, H16.
  simplify_eq.
  unfold CheckCharacter, PositionWeightTable, weights.
  cbn [list_ascii_of_string map weightedSum].
  rewrite !Z.mul_0_r. reflexivity.
Qed.

(** ** The validator, case by case *)

Lemma ValidateVIN_length_error (fullvin : string) :
  String.length fullvin <> 17%nat ->
  ValidateVIN fullvin = Returns (Some LengthError).
Proof.
  intros Hlen. unfold ValidateVIN.
  apply Nat.eqb_neq in Hlen. rewrite Hlen. reflexivity.
Qed.

(** X1: [ValidateVIN] returns the length error exactly for the strings whose
    length is not 17, whatever they hold (the length is checked first); no
    other failure of a 17-character string is reported as that error. *)
Theorem ValidateVIN_length_error_iff (fullvin : string) :
  ValidateVIN fullvin = Returns (Some LengthError)
  <-> String.length fullvin <> 17%nat.
Proof.
  split; [|apply ValidateVIN_length_error].
  intros Hrun Hlen. unfold ValidateVIN in Hrun.
  rewrite Hlen in Hrun. cbn [Nat.eqb negb] in Hrun.
  destruct (ContainsAny fullvin "IOQ"); [discriminate|].
  destruct (slice fullvin 8 9) as [checkDigit|]; [|discriminate].
  cbn [bindR] in Hrun.
  destruct (calculateScore fullvin) as [score|]; [|discriminate].
  cbn [bindR] in Hrun.
  destruct (negb _); discriminate.
Qed.

(** X2: [ValidateVIN] returns [nil] exactly for the strings of 17 characters,
    all of them digits or one of the 23 letters, whose character at position
    8 is the check character of the weighted sum. *)
Theorem ValidateVIN_accepts_iff (fullvin : string) :
  ValidateVIN fullvin = Returns None
  <-> String.length fullvin = 17%nat
      /\ charsetValid fullvin = true
      /\ substring 8 1 fullvin = CheckCharacter fullvin.
Proof.
  split.
  - intros Hrun.
    destruct (Nat.eq_dec (String.length fullvin) 17%nat) as [Hlen|Hlen];
      [|rewrite (ValidateVIN_length_error _ Hlen) in Hrun; discriminate].
    split; [exact Hlen|].
    destruct (charsetValid fullvin) eqn:Hvalid.
    + split; [reflexivity|].
      rewrite (ValidateVIN_charset_valid _ Hlen Hvalid) in Hrun.
      destruct (String.eqb _ _) eqn:E; [|discriminate].
      apply String.eqb_eq. exact E.
    + exfalso. unfold ValidateVIN, calculateScore in Hrun.
      rewrite Hlen in Hrun. cbn [Nat.eqb negb] in Hrun.
      destruct (ContainsAny fullvin "IOQ"); [discriminate|].
      rewrite slice_ok in Hrun by lia.
      rewrite scoreLoop_invalid in Hrun by (auto with lia).
      discriminate.
  - intros (Hlen & Hvalid & Hcheck).
    rewrite (ValidateVIN_charset_valid _ Hlen Hvalid), Hcheck.
    rewrite String.eqb_refl. reflexivity.
Qed.

(** X3: on a 17-character string over the character set whose position 8 is
    not the check character, [ValidateVIN] returns the check digit error, and
    its message names the character found first and the one computed
    second. *)
Theorem ValidateVIN_check_digit_mismatch (fullvin : string) :
  String.length fullvin = 17%nat ->
  charsetValid fullvin = true ->
  substring 8 1 fullvin <> CheckCharacter fullvin ->
  ValidateVIN fullvin
  = Returns (Some (ErrorString
                     ("check digit " +:+ substring 8 1 fullvin
                      +:+ " is invalid for " +:+ CheckCharacter fullvin))).
Proof.
  intros Hlen Hvalid Hdiffer.
  rewrite (ValidateVIN_charset_valid _ Hlen Hvalid).
  apply String.eqb_neq in Hdiffer. rewrite Hdiffer. reflexivity.
Qed.

Lemma ValidateVIN_check_digit_mismatch_witness :
  ValidateVIN "1HGCM82643A004352"
  = Returns (Some (ErrorString "check digit 4 is invalid for 3")).
Proof.
  apply (ValidateVIN_check_digit_mismatch "1HGCM82643A004352");
    [reflexivity | reflexivity | vm_compute; discriminate].
Defined.

(** X4: [ValidateVIN] panics on a 17-character string that has no [I], [O]
    or [Q] but has a character that is neither a digit nor one of the 23
    letters (a lower-case letter, a sign, a byte from 0x80 on): the panic is
    the one [calculateScore] raises with [Atoi]'s error. *)
Theorem ValidateVIN_panics_on_unscorable (fullvin : string) :
  String.length fullvin = 17%nat ->
  ContainsAny fullvin "IOQ" = false ->
  charsetValid fullvin = false ->
  ValidateVIN fullvin = Panics (PanicNumError ErrSyntax).
Proof.
  intros Hlen Hreserved Hvalid. unfold ValidateVIN, calculateScore.
  rewrite Hlen, Hreserved. cbn [Nat.eqb negb].
  rewrite slice_ok by lia.
  rewrite scoreLoop_invalid by (auto with lia). reflexivity.
Qed.

Lemma ValidateVIN_panics_on_unscorable_witness :
  ValidateVIN "1hgcm82633a004352" = Panics (PanicNumError ErrSyntax).
Proof.
  apply (ValidateVIN_panics_on_unscorable "1hgcm82633a004352"); reflexivity.
Defined.

(** X5: putting the character that [calculateScore] computes at position 8
    of a 17-character string over the character set gives a string that
    [ValidateVIN] accepts. *)
Theorem ValidateVIN_after_fixing_check_digit (fullvin score : string) :
  String.length fullvin = 17%nat ->
  charsetValid fullvin = true ->
  calculateScore fullvin = Returns score ->
  ValidateVIN (substring 0 8 fullvin +:+ score +:+ substring 9 8 fullvin)
  = Returns None.
Proof.
  intros Hlen Hvalid Hscore.
  rewrite (calculateScore_refines _ Hlen Hvalid) in Hscore.
  injection Hscore as <-.
  pose proof (CheckCharacter_shape fullvin) as Hshape.
  remember (CheckCharacter fullvin) as cc eqn:Hcc.
  explode17 fullvin Hlen.
  match goal with
  | |- ValidateVIN ?fixed = _ =>
      assert (Hfixed : String.length fixed = 17%nat
                       /\ charsetValid fixed = true
                       /\ substring 8 1 fixed = CheckCharacter fixed)
  end.
  { assert (Hcc' : validChar "X" = true
                   /\ forall d, isDigit d = true -> validChar d = true).
    { split; [reflexivity|].
      intros d Hd. unfold validChar. rewrite Hd. reflexivity. }
    destruct Hcc' as [HX Hdigit].
    unfold charsetValid in Hvalid |- *.
    cbn [list_ascii_of_string forallb] in Hvalid.
    repeat (apply andb_prop in Hvalid as [? Hvalid]).
    destruct Hshape as [-> | (d & Hd & ->)].
    - split; [reflexivity|]. split.
      + cbn [substring append list_ascii_of_string forallb].
        repeat (apply andb_true_intro; split); auto.
      + match type of Hcc with
        | _ = CheckCharacter ?s =>
            match goal with
            | |- _ = CheckCharacter ?f =>
                rewrite <- (CheckCharacter_position8 s f eq_refl eq_refl);
                  [exact Hcc|]
            end
        end.
        intros i Hi.
        do 17 (destruct i as [|i]; [first [reflexivity | exfalso; lia]|]).
        reflexivity.
    - split; [reflexivity|]. split.
      + cbn [substring append list_ascii_of_string forallb].
        repeat (apply andb_true_intro; split); auto.
      + match type of Hcc with
        | _ = CheckCharacter ?s =>
            match goal with
            | |- _ = CheckCharacter ?f =>
                rewrite <- (CheckCharacter_position8 s f eq_refl eq_refl);
                  [exact Hcc|]
            end
        end.
        intros i Hi.
        do 17 (destruct i as [|i]; [first [reflexivity | exfalso; lia]|]).
        reflexivity. }
  destruct Hfixed as (Hlen' & Hvalid' & Hcheck).
  rewrite (ValidateVIN_charset_valid _ Hlen' Hvalid'), Hcheck.
  rewrite String.eqb_refl. reflexivity.
Qed.

Lemma ValidateVIN_after_fixing_check_digit_witness :
  calculateScore "1HGCM82643A004352" = Returns "3"
  /\ ValidateVIN "1HGCM82633A004352" = Returns None.
Proof.
  split; [reflexivity|].
  exact (ValidateVIN_after_fixing_check_digit "1HGCM82643A004352" "3"
           eq_refl eq_refl eq_refl).
Defined.

(** ** The check digit off its precondition *)

(** X6: [calculateScore] panics with an index out of range on every string
    over the character set that is longer than 17 characters: [weights] has
    17 entries and the loop does not stop at the 17th character. *)
Theorem calculateScore_too_long (fullvin : string) :
  charsetValid fullvin = true ->
  (17 < String.length fullvin)%nat ->
  calculateScore fullvin = Panics IndexOutOfRange.
Proof.
  intros Hvalid Hlen. unfold calculateScore.
  rewrite scoreLoop_too_long by (auto with lia). reflexivity.
Qed.

Lemma calculateScore_too_long_witness :
  calculateScore "1HGCM82633A0043520" = Panics IndexOutOfRange.
Proof.
  apply (calculateScore_too_long "1HGCM82633A0043520");
    [reflexivity | cbn; lia].
Defined.

(** X7: [calculateScore] panics with [Atoi]'s syntax error on every string of
    at most 17 characters that has a character which is neither a digit nor
    one of the 23 letters; [I], [O] and [Q] are such characters. *)
Theorem calculateScore_unscorable (fullvin : string) :
  (String.length fullvin <= 17)%nat ->
  charsetValid fullvin = false ->
  calculateScore fullvin = Panics (PanicNumError ErrSyntax).
Proof.
  intros Hlen Hvalid. unfold calculateScore.
  rewrite scoreLoop_invalid by (auto with lia). reflexivity.
Qed.

Lemma calculateScore_unscorable_witness :
  calculateScore "1HGCM82633A00435I" = Panics (PanicNumError ErrSyntax).
Proof.
  apply (calculateScore_unscorable "1HGCM82633A00435I");
    [cbn; lia | reflexivity].
Defined.

(** X8: on a string over the character set that is shorter than 17
    characters [calculateScore] does not panic: it returns the check
    character of the weighted sum over the characters there are, so the
    empty string gets [0]. *)
Theorem calculateScore_short (fullvin : string) :
  (String.length fullvin <= 17)%nat ->
  charsetValid fullvin = true ->
  let values := map charValue (list_ascii_of_string fullvin) in
  let total := weightedSum values weights in
  0 <= total
  /\ calculateScore fullvin
     = Returns (if total mod 11 =? 10 then "X" else Itoa (total mod 11)).
Proof.
  intros Hlen Hvalid. cbv zeta.
  destruct (scoreLoop_sum fullvin 0 0 Hvalid) as [Heq Hb]; [lia | lia |].
  change (drop 0 weights) with weights in Heq, Hb. split; [lia|].
  unfold calculateScore. rewrite Heq. cbn [bindR].
  rewrite Z.add_0_l, int_rem_nonneg by lia.
  destruct (_ =? 10); reflexivity.
Qed.

Lemma calculateScore_short_witness :
  calculateScore EmptyString = Returns "0"
  /\ calculateScore "1HGCM826" = Returns "5".
Proof.
  split.
  - exact (proj2 (calculateScore_short EmptyString ltac:(cbn; lia) eq_refl)).
  - exact (proj2 (calculateScore_short "1HGCM826" ltac:(cbn; lia) eq_refl)).
Defined.

(** X9: the character map has an entry for a key exactly when the key is one
    of the 23 letters, and every value is between 1 and 9: the digits, [I],
    [O], [Q], lower-case letters and keys of another length have none. *)
Theorem getCharacterMap_entries (key : string) :
  match getCharacterMap !! key with
  | Some value =>
      1 <= value <= 9
      /\ exists c : ascii, key = String c EmptyString /\ isVinLetter c = true
  | None =>
      forall c : ascii, key = String c EmptyString -> isVinLetter c = false
  end.
Proof.
  destruct (getCharacterMap !! key) as [value|] eqn:Hkey.
  - unfold getCharacterMap in Hkey. cbn [foldl fst snd] in Hkey.
    repeat (apply lookup_insert_Some in Hkey as [[<- <-]|[_ Hkey]];
            [split; [lia|]; eexists; split; reflexivity|]).
    rewrite lookup_empty in Hkey. discriminate.
  - intros c ->. revert Hkey.
    destruct c as [[] [] [] [] [] [] [] []]; intros Hkey;
      solve [reflexivity | vm_compute in Hkey; discriminate Hkey].
Qed.

(** ** Decomposition at its bounds *)

Lemma substring_split (s : string) :
  forall n : nat,
    (n <= String.length s)%nat ->
    s = substring 0 n s +:+ substring n (String.length s - n) s
    /\ String.length (substring 0 n s) = n.
Proof.
  induction s as [|c s IH]; intros n Hn.
  - cbn [String.length] in Hn. assert (n = 0%nat) as -> by lia.
    split; reflexivity.
  - destruct n as [|n].
    + rewrite Nat.sub_0_r, substring_all. split; reflexivity.
    + cbn [String.length] in Hn |- *.
      destruct (IH n ltac:(lia)) as [Hsplit Hlen].
      change (S (String.length s) - S n)%nat with (String.length s - n)%nat.
      cbn [substring].
      change (String c (substring 0 n s) +:+ ?t)
        with (String c (substring 0 n s +:+ t)).
      cbn [String.length]. split; [f_equal; exact Hsplit | f_equal; exact Hlen].
Qed.

(** X10: [getUniqueSerial] panics exactly on the strings shorter than 11
    bytes, and the panic is the slice bounds one. *)
Theorem getUniqueSerial_panics_iff (fullvin : string) :
  (exists p : panic, getUniqueSerial fullvin = Panics p)
  <-> (String.length fullvin < 11)%nat.
Proof.
  split.
  - intros [p Hp].
    destruct (le_lt_dec 11 (String.length fullvin)) as [Hlen|Hlen];
      [|exact Hlen].
    rewrite (getUniqueSerial_long _ Hlen) in Hp. discriminate.
  - intros Hlen. exists SliceBoundsOutOfRange.
    apply getUniqueSerial_short. exact Hlen.
Qed.

(** X11: on a string of at least 11 bytes [getUniqueSerial] splits the
    string in two: the first component is the first 11 bytes, the second is
    what [Atoi] makes of all the bytes after them, and the two parts put
    together are the string. *)
Theorem getUniqueSerial_splits (fullvin : string) :
  (11 <= String.length fullvin)%nat ->
  exists unique rest : string,
    getUniqueSerial fullvin = Returns (unique, (Atoi rest).1)
    /\ fullvin = unique +:+ rest
    /\ String.length unique = 11%nat.
Proof.
  intros Hlen.
  exists (substring 0 11 fullvin),
    (substring 11 (String.length fullvin - 11) fullvin).
  split; [apply getUniqueSerial_long; exact Hlen|].
  apply substring_split. exact Hlen.
Qed.

Lemma getUniqueSerial_splits_witness :
  exists unique rest : string,
    getUniqueSerial "1HGCM82633A00435200" = Returns (unique, (Atoi rest).1)
    /\ "1HGCM82633A00435200" = unique +:+ rest
    /\ String.length unique = 11%nat.
Proof.
  apply (getUniqueSerial_splits "1HGCM82633A00435200"). cbn. lia.
Defined.

(** ** The decoder, stage by stage *)

Section DecoderCases.

Context {WMInfo_t VDSInfo_t Manufacturer_t : Type}.
Context (Manufacturer : WMInfo_t -> Manufacturer_t).
Context (WMInfo_zero : WMInfo_t) (VDSInfo_zero : VDSInfo_t).
Context (FindWMInfo : string -> WMInfo_t * option error).
Context (FindVDSInfo :
           Manufacturer_t -> string -> list Z -> VDSInfo_t * option error).
Context (getCharWeight : string -> Z) (yearAt : nat -> Z).

Local Abbreviation manufactureYear' :=
  (manufactureYear Manufacturer_t getCharWeight yearAt).
Local Abbreviation deconstruct' :=
  (deconstruct WMInfo_t VDSInfo_t Manufacturer_t Manufacturer
     FindWMInfo FindVDSInfo getCharWeight yearAt).
Local Abbreviation newVIN' :=
  (newVIN WMInfo_t VDSInfo_t Manufacturer_t Manufacturer
     WMInfo_zero VDSInfo_zero FindWMInfo FindVDSInfo getCharWeight yearAt).
Local Abbreviation BuildInfo' :=
  (BuildInfo WMInfo_t VDSInfo_t Manufacturer_t Manufacturer
     WMInfo_zero VDSInfo_zero FindWMInfo FindVDSInfo getCharWeight yearAt).

(** [newVIN] on a string long enough to be sliced. *)
Lemma newVIN_long (fullvin : string) (w : World Manufacturer_t) :
  (11 <= String.length fullvin)%nat ->
  let unique := substring 0 11 fullvin in
  let serial :=
    (Atoi (substring 11 (String.length fullvin - 11) fullvin)).1 in
  let found := FindWMInfo unique in
  let digit := substring 9 1 fullvin in
  let ys :=
    yearsLoop (getCharWeight digit) (yearAt (ticks w)) [1980; 2010] [] in
  let w1 := mkWorld (calls w ++ [CallFindWMInfo unique]) (ticks w) in
  let w2 :=
    mkWorld
      (calls w
       ++ [CallFindWMInfo unique;
           CallFindVDSInfo (Manufacturer found.1) unique ys])
      (S (ticks w)) in
  newVIN' fullvin w
  = match found.2 with
    | Some err => (Returns (None, Some err), w1)
    | None =>
        if getCharWeight digit =? 0
        then (Returns (None, Some NoWeightError), w1)
        else
          match (FindVDSInfo (Manufacturer found.1) unique ys).2 with
          | Some err => (Returns (None, Some err), w2)
          | None =>
              (Returns
                 (Some (mkVIN fullvin unique serial found.1 VDSInfo_zero),
                  None), w2)
          end
    end.
Proof.
  intros Hlen. cbv zeta. unfold newVIN, bindM, retM.
  pose proof (deconstruct_long Manufacturer FindWMInfo FindVDSInfo
                getCharWeight yearAt
                (mkVIN fullvin EmptyString 0 WMInfo_zero VDSInfo_zero) w Hlen)
    as E.
  cbv zeta in E. cbn [Full WMInfo VDSInfo] in E. rewrite E. clear E.
  destruct (FindWMInfo (substring 0 11 fullvin)) as [wmiInfo [err|]];
    cbn [fst snd]; [reflexivity|].
  destruct (getCharWeight _ =? 0); cbn [fst snd]; [reflexivity|].
  destruct (FindVDSInfo _ _ _) as [vdsInfo [err|]]; reflexivity.
Qed.

(** [BuildInfo] on a string long enough to be sliced: the stages of the
    first run of [deconstruct], then the VDS lookup of the second run, which
    is the only stage of it that can still fail. *)
Lemma BuildInfo_long (fullvin : string) (w : World Manufacturer_t) :
  (11 <= String.length fullvin)%nat ->
  let unique := substring 0 11 fullvin in
  let serial :=
    (Atoi (substring 11 (String.length fullvin - 11) fullvin)).1 in
  let found := FindWMInfo unique in
  let digit := substring 9 1 fullvin in
  let ys1 :=
    yearsLoop (getCharWeight digit) (yearAt (ticks w)) [1980; 2010] [] in
  let ys2 :=
    yearsLoop (getCharWeight digit) (yearAt (S (ticks w))) [1980; 2010] [] in
  let w1 := mkWorld (calls w ++ [CallFindWMInfo unique]) (ticks w) in
  let w2 :=
    mkWorld
      (calls w
       ++ [CallFindWMInfo unique;
           CallFindVDSInfo (Manufacturer found.1) unique ys1])
      (S (ticks w)) in
  let w4 :=
    mkWorld
      ((calls w
        ++ [CallFindWMInfo unique;
            CallFindVDSInfo (Manufacturer found.1) unique ys1])
       ++ [CallFindWMInfo unique;
           CallFindVDSInfo (Manufacturer found.1) unique ys2])
      (S (S (ticks w))) in
  BuildInfo' fullvin w
  = match found.2 with
    | Some err => (Returns (None, Some err), w1)
    | None =>
        if getCharWeight digit =? 0
        then (Returns (None, Some NoWeightError), w1)
        else
          match (FindVDSInfo (Manufacturer found.1) unique ys1).2 with
          | Some err => (Returns (None, Some err), w2)
          | None =>
              match (FindVDSInfo (Manufacturer found.1) unique ys2).2 with
              | Some err => (Returns (None, Some err), w4)
              | None =>
                  (Returns
                     (Some (mkVIN fullvin unique serial found.1
                              VDSInfo_zero), None), w4)
              end
          end
    end.
Proof.
  intros Hlen. cbv zeta. unfold BuildInfo, bindM, retM.
  pose proof (newVIN_long fullvin w Hlen) as E. cbv zeta in E.
  rewrite E. clear E.
  destruct (FindWMInfo (substring 0 11 fullvin)) as [wmiInfo [err|]] eqn:Hfound;
    cbn [fst snd]; [reflexivity|].
  destruct (getCharWeight (substring 9 1 fullvin) =? 0) eqn:Hweight;
    cbn [fst snd]; [reflexivity|].
  destruct (FindVDSInfo _ _ _) as [vdsInfo [err|]]; cbn [fst snd];
    [reflexivity|].
  match goal with
  | |- context [deconstruct _ _ _ _ _ _ _ _ ?m ?w2] =>
      pose proof (deconstruct_long Manufacturer FindWMInfo FindVDSInfo
                    getCharWeight yearAt m w2 Hlen) as E
  end.
  cbv zeta in E. cbn [Full WMInfo VDSInfo calls ticks] in E.
  rewrite Hfound, Hweight in E. cbn [fst snd] in E. rewrite E. clear E.
  destruct (FindVDSInfo _ _ _) as [vdsInfo' [err|]]; reflexivity.
Qed.

(** X12: [BuildInfo] panics exactly on the strings shorter than 11 bytes,
    before it has called a lookup or read the clock. *)
Theorem BuildInfo_panics_iff (fullvin : string) (w : World Manufacturer_t) :
  ((exists (p : panic) (w' : World Manufacturer_t),
       BuildInfo' fullvin w = (Panics p, w'))
   <-> (String.length fullvin < 11)%nat)
  /\ forall (p : panic) (w' : World Manufacturer_t),
       BuildInfo' fullvin w = (Panics p, w') ->
       p = SliceBoundsOutOfRange /\ w' = w.
Proof.
  assert (Hlong : (11 <= String.length fullvin)%nat ->
                  forall p w', BuildInfo' fullvin w <> (Panics p, w')).
  { intros Hlen p w' Hrun.
    pose proof (BuildInfo_long fullvin w Hlen) as E. cbv zeta in E.
    rewrite E in Hrun. clear E.
    destruct (FindWMInfo (substring 0 11 fullvin)) as [wmiInfo [err|]];
      cbn [fst snd] in Hrun; [discriminate|].
    destruct (getCharWeight _ =? 0); cbn [fst snd] in Hrun; [discriminate|].
    destruct (FindVDSInfo _ _ _) as [vdsInfo [err|]]; cbn [fst snd] in Hrun;
      [discriminate|].
    destruct (FindVDSInfo _ _ _) as [vdsInfo' [err|]]; discriminate. }
  split; [split|].
  - intros (p & w' & Hrun).
    destruct (le_lt_dec 11 (String.length fullvin)) as [Hlen|Hlen];
      [|exact Hlen].
    exfalso. exact (Hlong Hlen p w' Hrun).
  - intros Hlen. exists SliceBoundsOutOfRange, w.
    apply BuildInfo_short. exact Hlen.
  - intros p w' Hrun.
    destruct (le_lt_dec 11 (String.length fullvin)) as [Hlen|Hlen];
      [exfalso; exact (Hlong Hlen p w' Hrun)|].
    rewrite (BuildInfo_short _ _ _ _ _ _ _ fullvin w Hlen) in Hrun.
    injection Hrun as <- <-. split; reflexivity.
Qed.

(** X13: [BuildInfo] returns either a VIN and no error or no VIN and an
    error, never both and never neither. *)
Theorem BuildInfo_all_or_nothing (fullvin : string)
  (w : World Manufacturer_t) :
  match (BuildInfo' fullvin w).1 with
  | Returns (Some _, None) | Returns (None, Some _) => True
  | Returns (Some _, Some _) | Returns (None, None) => False
  | Panics _ => True
  end.
Proof.
  destruct (le_lt_dec 11 (String.length fullvin)) as [Hlen|Hlen].
  - pose proof (BuildInfo_long fullvin w Hlen) as E. cbv zeta in E.
    rewrite E. clear E.
    destruct (FindWMInfo (substring 0 11 fullvin)) as [wmiInfo [err|]];
      cbn [fst snd]; [exact I|].
    destruct (getCharWeight _ =? 0); cbn [fst snd]; [exact I|].
    destruct (FindVDSInfo _ _ _) as [vdsInfo [err|]]; cbn [fst snd];
      [exact I|].
    destruct (FindVDSInfo _ _ _) as [vdsInfo' [err|]]; exact I.
  - rewrite (BuildInfo_short _ _ _ _ _ _ _ fullvin w Hlen). exact I.
Qed.

(** X14: when the WMI lookup finds the prefix but the character at position
    9 has weight 0, [BuildInfo] returns the "unable to get a weight" error
    after the one WMI call: the clock is not read and the VDS lookup is not
    called. *)
Theorem BuildInfo_no_weight (fullvin : string) (w : World Manufacturer_t) :
  (11 <= String.length fullvin)%nat ->
  (FindWMInfo (substring 0 11 fullvin)).2 = None ->
  getCharWeight (substring 9 1 fullvin) = 0 ->
  BuildInfo' fullvin w
  = (Returns (None, Some NoWeightError),
     mkWorld (calls w ++ [CallFindWMInfo (substring 0 11 fullvin)])
       (ticks w)).
Proof.
  intros Hlen Hfound Hweight.
  pose proof (BuildInfo_long fullvin w Hlen) as E. cbv zeta in E.
  rewrite E, Hfound, Hweight. reflexivity.
Qed.

(** X15: when the VDS lookup of the first run fails, [BuildInfo] returns
    that error as it is and stops: each lookup has been called once and the
    clock read once. *)
Theorem BuildInfo_VDS_error (fullvin : string) (w : World Manufacturer_t)
  (err : error) :
  (11 <= String.length fullvin)%nat ->
  (FindWMInfo (substring 0 11 fullvin)).2 = None ->
  getCharWeight (substring 9 1 fullvin) <> 0 ->
  let unique := substring 0 11 fullvin in
  let manufacturer := Manufacturer (FindWMInfo unique).1 in
  let ys :=
    yearsLoop (getCharWeight (substring 9 1 fullvin)) (yearAt (ticks w))
      [1980; 2010] [] in
  (FindVDSInfo manufacturer unique ys).2 = Some err ->
  BuildInfo' fullvin w
  = (Returns (None, Some err),
     mkWorld
       (calls w
        ++ [CallFindWMInfo unique; CallFindVDSInfo manufacturer unique ys])
       (S (ticks w))).
Proof.
  intros Hlen Hfound Hweight unique manufacturer ys Hvds.
  pose proof (BuildInfo_long fullvin w Hlen) as E. cbv zeta in E.
  apply Z.eqb_neq in Hweight.
  rewrite E, Hfound, Hweight. fold unique manufacturer ys.
  rewrite Hvds. reflexivity.
Qed.

(** X16: when the WMI lookup finds the first 11 bytes, the character at
    position 9 has a weight other than 0 and the VDS lookup finds a record
    whatever the years, [BuildInfo] returns a VIN: its [Full] is the input,
    its [Unique] the first 11 bytes, its [Serial] what [Atoi] makes of the
    rest, its [WMInfo] the record of the WMI lookup. *)
Theorem BuildInfo_succeeds (fullvin : string) (w : World Manufacturer_t) :
  (11 <= String.length fullvin)%nat ->
  (FindWMInfo (substring 0 11 fullvin)).2 = None ->
  getCharWeight (substring 9 1 fullvin) <> 0 ->
  (forall ys : list Z,
      (FindVDSInfo (Manufacturer (FindWMInfo (substring 0 11 fullvin)).1)
         (substring 0 11 fullvin) ys).2 = None) ->
  exists vin : VIN WMInfo_t VDSInfo_t,
    (BuildInfo' fullvin w).1 = Returns (Some vin, None)
    /\ Full vin = fullvin
    /\ Unique vin = substring 0 11 fullvin
    /\ Serial vin
       = (Atoi (substring 11 (String.length fullvin - 11) fullvin)).1
    /\ WMInfo vin = (FindWMInfo (substring 0 11 fullvin)).1.
Proof.
  intros Hlen Hfound Hweight Hvds.
  pose proof (BuildInfo_long fullvin w Hlen) as E. cbv zeta in E.
  apply Z.eqb_neq in Hweight.
  rewrite E, Hfound, Hweight, !Hvds. cbn [fst].
  eexists. split; [reflexivity|]. repeat split.
Qed.

(** X17: a VIN that [BuildInfo] returns comes from a string of at least 11
    bytes whose first 11 bytes the WMI lookup found and whose character at
    position 9 has a weight other than 0; its [Full] is that string and its
    [Unique] is 11 bytes long. *)
Theorem BuildInfo_returned_VIN (fullvin : string)
  (w w' : World Manufacturer_t) (vin : VIN WMInfo_t VDSInfo_t) :
  BuildInfo' fullvin w = (Returns (Some vin, None), w') ->
  (11 <= String.length fullvin)%nat
  /\ Full vin = fullvin
  /\ String.length (Unique vin) = 11%nat
  /\ FindWMInfo (Unique vin) = (WMInfo vin, None)
  /\ getCharWeight (substring 9 1 fullvin) <> 0.
Proof.
  intros Hrun.
  destruct (le_lt_dec 11 (String.length fullvin)) as [Hlen|Hlen];
    [|rewrite (BuildInfo_short _ _ _ _ _ _ _ fullvin w Hlen) in Hrun;
      discriminate].
  pose proof (BuildInfo_long fullvin w Hlen) as E. cbv zeta in E.
  rewrite E in Hrun. clear E.
  destruct (FindWMInfo (substring 0 11 fullvin)) as [wmiInfo [err|]] eqn:Hfound;
    cbn [fst snd] in Hrun; [discriminate|].
  destruct (getCharWeight (substring 9 1 fullvin) =? 0) eqn:Hweight;
    cbn [fst snd] in Hrun; [discriminate|].
  destruct (FindVDSInfo _ _ _) as [vdsInfo [err|]]; cbn [fst snd] in Hrun;
    [discriminate|].
  destruct (FindVDSInfo _ _ _) as [vdsInfo' [err|]]; cbn [fst snd] in Hrun;
    [discriminate|].
  injection Hrun as <- <-. cbn [Full Unique WMInfo].
  split; [exact Hlen|]. split; [reflexivity|].
  split; [exact (proj2 (substring_split fullvin 11 Hlen))|].
  split; [exact Hfound|]. apply Z.eqb_neq. exact Hweight.
Qed.

(** X18: when the clock shows the same year at its two readings, the second
    run of [deconstruct] changes nothing: [BuildInfo] returns what [newVIN]
    returns, be it a VIN, an error or a panic. *)
Theorem BuildInfo_same_year (fullvin : string) (w : World Manufacturer_t) :
  yearAt (S (ticks w)) = yearAt (ticks w) ->
  (BuildInfo' fullvin w).1 = (newVIN' fullvin w).1.
Proof.
  intros Hyear.
  destruct (le_lt_dec 11 (String.length fullvin)) as [Hlen|Hlen].
  - pose proof (BuildInfo_long fullvin w Hlen) as E. cbv zeta in E.
    pose proof (newVIN_long fullvin w Hlen) as E'. cbv zeta in E'.
    rewrite E, E', Hyear. clear E E'.
    destruct (FindWMInfo (substring 0 11 fullvin)) as [wmiInfo [err|]];
      cbn [fst snd]; [reflexivity|].
    destruct (getCharWeight _ =? 0); cbn [fst snd]; [reflexivity|].
    destruct (FindVDSInfo _ _ _) as [vdsInfo [err|]]; reflexivity.
  - rewrite (BuildInfo_short _ _ _ _ _ _ _ fullvin w Hlen).
    unfold newVIN, bindM.
    rewrite deconstruct_short by exact Hlen. reflexivity.
Qed.

(** X19: whatever [deconstruct] returns, error or not, it has left [Full] and
    [VDSInfo] of its receiver as they were and has set [Unique] to the first
    11 bytes of [Full]. *)
Theorem deconstruct_frame (m m' : VIN WMInfo_t VDSInfo_t)
  (w w' : World Manufacturer_t) (err : option error) :
  deconstruct' m w = (Returns (m', err), w') ->
  Full m' = Full m
  /\ VDSInfo m' = VDSInfo m
  /\ Unique m' = substring 0 11 (Full m).
Proof.
  intros Hrun.
  destruct (le_lt_dec 11 (String.length (Full m))) as [Hlen|Hlen];
    [|rewrite (deconstruct_short _ _ _ _ _ m w Hlen) in Hrun; discriminate].
  pose proof (deconstruct_long Manufacturer FindWMInfo FindVDSInfo
                getCharWeight yearAt m w Hlen) as E.
  cbv zeta in E. rewrite E in Hrun. clear E.
  destruct (FindWMInfo (substring 0 11 (Full m))) as [wmiInfo [e|]];
    cbn [fst snd] in Hrun.
  - injection Hrun as <- _ _. repeat split.
  - destruct (getCharWeight _ =? 0);
      injection Hrun as <- _ _; repeat split.
Qed.

(** X20: a record that [deconstruct] has filled without an error is a fixed
    point of it: run again, from any state of the trace and the clock,
    [deconstruct] returns the same record. *)
Theorem deconstruct_idempotent (m m' : VIN WMInfo_t VDSInfo_t)
  (w w1 w2 : World Manufacturer_t) :
  deconstruct' m w = (Returns (m', None), w1) ->
  exists (err : option error) (w3 : World Manufacturer_t),
    deconstruct' m' w2 = (Returns (m', err), w3).
Proof.
  intros Hrun.
  destruct (le_lt_dec 11 (String.length (Full m))) as [Hlen|Hlen];
    [|rewrite (deconstruct_short _ _ _ _ _ m w Hlen) in Hrun; discriminate].
  pose proof (deconstruct_long Manufacturer FindWMInfo FindVDSInfo
                getCharWeight yearAt m w Hlen) as E.
  cbv zeta in E. rewrite E in Hrun. clear E.
  destruct (FindWMInfo (substring 0 11 (Full m))) as [wmiInfo [e|]] eqn:Hfound;
    cbn [fst snd] in Hrun; [discriminate|].
  destruct (getCharWeight (substring 9 1 (Full m)) =? 0) eqn:Hweight;
    [discriminate|].
  injection Hrun as <- _ _.
  match goal with
  | |- context [deconstruct _ _ _ _ _ _ _ _ ?r _] =>
      pose proof (deconstruct_long Manufacturer FindWMInfo FindVDSInfo
                    getCharWeight yearAt r w2 Hlen) as E
  end.
  cbv zeta in E. cbn [Full WMInfo VDSInfo] in E.
  rewrite Hfound, Hweight in E. cbn [fst snd] in E.
  rewrite E. eexists _, _. reflexivity.
Qed.

(** X21: the years that [manufactureYear] returns are at most two and each is
    strictly below the year the clock shows; the clock is read once and no
    lookup is called. *)
Theorem manufactureYear_years_below_now (digit : string)
  (w w' : World Manufacturer_t) (ys : list Z) :
  manufactureYear' digit w = (Returns (ys, None), w') ->
  Forall (fun y => y < yearAt (ticks w)) ys
  /\ (length ys <= 2)%nat
  /\ w' = mkWorld (calls w) (S (ticks w)).
Proof.
  intros Hrun.
  destruct (Z.eq_dec (getCharWeight digit) 0) as [Hweight|Hweight].
  - rewrite (manufactureYear_no_weight _ _ digit w Hweight) in Hrun.
    discriminate.
  - rewrite (manufactureYear_weight _ _ digit w Hweight) in Hrun.
    injection Hrun as <- <-. cbn [yearsLoop app].
    destruct (int_add 1980 _ <? _) eqn:E1;
      destruct (int_add 2010 _ <? _) eqn:E2;
      cbn [app length];
      rewrite ?Z.ltb_lt in *;
      (split; [repeat constructor; assumption|]);
      (split; [lia|reflexivity]).
Qed.

(** X22: for a character of a weight [cw] other than 0, far from the ends of
    [int], [manufactureYear] returns those of [1980 + cw] and [2010 + cw], in
    this order, that are strictly below the year the clock shows; none of
    them need be, and an empty list comes with no error. *)
Theorem manufactureYear_candidates (digit : string)
  (w : World Manufacturer_t) :
  let cw := getCharWeight digit in
  cw <> 0 ->
  minInt <= 1980 + cw ->
  2010 + cw <= maxInt ->
  manufactureYear' digit w
  = (Returns
       (List.filter (fun y => y <? yearAt (ticks w)) [1980 + cw; 2010 + cw],
        None),
     mkWorld (calls w) (S (ticks w))).
Proof.
  intros cw Hweight Hlo Hhi.
  rewrite (manufactureYear_weight getCharWeight yearAt digit w Hweight).
  fold cw. cbn [yearsLoop List.filter app]. unfold int_add.
  rewrite !wrap_small by lia.
  destruct (1980 + cw <? _); destruct (2010 + cw <? _); reflexivity.
Qed.

End DecoderCases.

(** ** The stages on examples *)

Lemma BuildInfo_no_weight_witness :
  Fixture.getCharWeight (substring 9 1 "1HGCM8264AA004352") = 0
  /\ Fixture.BuildInfo "1HGCM8264AA004352" Fixture.w0
     = (Returns (None, Some NoWeightError),
        mkWorld [CallFindWMInfo "1HGCM8264AA"] 0).
Proof.
  split; [reflexivity|].
  exact (BuildInfo_no_weight Fixture.wmManufacturer Fixture.zeroWMInfo
           Fixture.zeroVDSInfo Fixture.FindWMInfo Fixture.FindVDSInfo
           Fixture.getCharWeight Fixture.yearAt
           "1HGCM8264AA004352" Fixture.w0
           ltac:(cbn; lia) eq_refl eq_refl).
Defined.

Lemma BuildInfo_VDS_error_witness :
  BuildInfo Fixture.WMInfoRec Fixture.VDSInfoRec string
    Fixture.wmManufacturer Fixture.zeroWMInfo Fixture.zeroVDSInfo
    Fixture.FindWMInfo
    (fun _ _ _ => (Fixture.zeroVDSInfo, Some (errors_New "no descriptor")))
    Fixture.getCharWeight Fixture.yearAt "1HGCM82633A004352" Fixture.w0
  = (Returns (None, Some (errors_New "no descriptor")),
     mkWorld
       [CallFindWMInfo "1HGCM82633A";
        CallFindVDSInfo "Honda" "1HGCM82633A" [2003]] 1).
Proof.
  apply (BuildInfo_VDS_error Fixture.wmManufacturer Fixture.zeroWMInfo
           Fixture.zeroVDSInfo Fixture.FindWMInfo
           (fun _ _ _ =>
              (Fixture.zeroVDSInfo, Some (errors_New "no descriptor")))
           Fixture.getCharWeight Fixture.yearAt
           "1HGCM82633A004352" Fixture.w0 (errors_New "no descriptor"));
    [cbn; lia | reflexivity | vm_compute; discriminate | reflexivity].
Defined.

Lemma BuildInfo_succeeds_witness :
  exists vin : VIN Fixture.WMInfoRec Fixture.VDSInfoRec,
    (Fixture.BuildInfo "1HGCM82633A004352" Fixture.w0).1
    = Returns (Some vin, None)
    /\ Full vin = "1HGCM82633A004352"
    /\ Unique vin = "1HGCM82633A"
    /\ Serial vin = 4352
    /\ WMInfo vin = Fixture.honda.
Proof.
  apply (BuildInfo_succeeds Fixture.wmManufacturer Fixture.zeroWMInfo
           Fixture.zeroVDSInfo Fixture.FindWMInfo Fixture.FindVDSInfo
           Fixture.getCharWeight Fixture.yearAt
           "1HGCM82633A004352" Fixture.w0);
    [cbn; lia | reflexivity | vm_compute; discriminate
    | intros ys; reflexivity].
Defined.

Lemma BuildInfo_returned_VIN_witness :
  (11 <= String.length "1HGCM82633A004352")%nat
  /\ Full Fixture.hondaVIN = "1HGCM82633A004352"
  /\ String.length (Unique Fixture.hondaVIN) = 11%nat
  /\ Fixture.FindWMInfo (Unique Fixture.hondaVIN)
     = (WMInfo Fixture.hondaVIN, None)
  /\ Fixture.getCharWeight (substring 9 1 "1HGCM82633A004352") <> 0.
Proof.
  exact (BuildInfo_returned_VIN Fixture.wmManufacturer Fixture.zeroWMInfo
           Fixture.zeroVDSInfo Fixture.FindWMInfo Fixture.FindVDSInfo
           Fixture.getCharWeight Fixture.yearAt
           "1HGCM82633A004352" Fixture.w0 _ Fixture.hondaVIN
           BuildInfo_honda).
Defined.

Lemma BuildInfo_same_year_witness :
  Fixture.yearAt (S (ticks Fixture.w0)) = Fixture.yearAt (ticks Fixture.w0)
  /\ (Fixture.BuildInfo "1HGCM82633A004352" Fixture.w0).1
     = (Fixture.newVIN "1HGCM82633A004352" Fixture.w0).1
  /\ (Fixture.newVIN "1HGCM82633A004352" Fixture.w0).1
     = Returns (Some Fixture.hondaVIN, None)
  /\ ticks (Fixture.BuildInfo "1HGCM82633A004352" Fixture.w0).2 = 2%nat.
Proof.
  split; [reflexivity|].
  split; [|split; reflexivity].
  exact (BuildInfo_same_year Fixture.wmManufacturer Fixture.zeroWMInfo
           Fixture.zeroVDSInfo Fixture.FindWMInfo Fixture.FindVDSInfo
           Fixture.getCharWeight Fixture.yearAt
           "1HGCM82633A004352" Fixture.w0 eq_refl).
Defined.

Lemma deconstruct_frame_witness :
  exists (m' : VIN Fixture.WMInfoRec Fixture.VDSInfoRec)
         (w' : World string),
    deconstruct Fixture.WMInfoRec Fixture.VDSInfoRec string
      Fixture.wmManufacturer Fixture.FindWMInfo Fixture.FindVDSInfo
      Fixture.getCharWeight Fixture.yearAt
      (mkVIN "2HGCM82633A004352" "old" 7 Fixture.honda Fixture.sedan)
      Fixture.w0
    = (Returns (m', Some (errors_New "manufacturer not found")), w')
    /\ Full m' = "2HGCM82633A004352"
    /\ VDSInfo m' = Fixture.sedan
    /\ Unique m' = "2HGCM82633A".
Proof.
  exists (mkVIN "2HGCM82633A004352" "2HGCM82633A" 4352 Fixture.honda
            Fixture.sedan),
    (mkWorld [CallFindWMInfo "2HGCM82633A"] 0).
  split; [reflexivity|].
  exact (deconstruct_frame Fixture.wmManufacturer Fixture.FindWMInfo
           Fixture.FindVDSInfo Fixture.getCharWeight Fixture.yearAt
           (mkVIN "2HGCM82633A004352" "old" 7 Fixture.honda Fixture.sedan)
           _ Fixture.w0 _ _ eq_refl).
Defined.

Lemma deconstruct_idempotent_witness :
  exists (err : option error) (w3 : World string),
    deconstruct Fixture.WMInfoRec Fixture.VDSInfoRec string
      Fixture.wmManufacturer Fixture.FindWMInfo Fixture.FindVDSInfo
      Fixture.getCharWeight Fixture.yearAt Fixture.hondaVIN
      (mkWorld [] 7)
    = (Returns (Fixture.hondaVIN, err), w3).
Proof.
  exact (deconstruct_idempotent Fixture.wmManufacturer Fixture.FindWMInfo
           Fixture.FindVDSInfo Fixture.getCharWeight Fixture.yearAt
           (mkVIN "1HGCM82633A004352" EmptyString 0 Fixture.zeroWMInfo
              Fixture.zeroVDSInfo)
           Fixture.hondaVIN Fixture.w0 _ (mkWorld [] 7) eq_refl).
Defined.

Lemma manufactureYear_years_below_now_witness :
  Forall (fun y => y < 2025) [2003]
  /\ (length [2003] <= 2)%nat
  /\ mkWorld (Manufacturer_t := string) [] 1 = mkWorld [] 1.
Proof.
  exact (manufactureYear_years_below_now Fixture.getCharWeight Fixture.yearAt
           "3" Fixture.w0 (mkWorld [] 1) [2003] eq_refl).
Defined.

Lemma manufactureYear_candidates_witness :
  Fixture.manufactureYear "3" Fixture.w0
  = (Returns ([2003], None), mkWorld [] 1).
Proof.
  apply (manufactureYear_candidates Fixture.getCharWeight Fixture.yearAt
           "3" Fixture.w0);
    vm_compute; discriminate.
Defined.
